(** * fevicol: the authentication and authorization core

    A shallow embedding of the module that the server imports as [./auth]
    (source file [src/unnamed/part_000]: class [AuthService], the middlewares
    [requireAuth], [requireRole], [loadUserContext]) and of the four
    [/api/auth] routes of [registerRoutes] in [src/server/index.ts].  Line
    numbers in the comments are those of these two files.

    - Table rows are records with the column names of the TypeScript code.
    - Objects built by an explicit [select({...})] projection, and JSON
      response bodies, are JavaScript objects: ordered lists of fields.
    - [async] code runs in a state-and-exception monad over a [World] that
      holds the database, a schedule of storage faults, the clock, what was
      written with [console.error] and a journal of the rows written. *)

From Stdlib Require Import String ZArith List Bool Lia.
From Stdlib Require Import Ascii DecimalString.
Import ListNotations.
Local Open Scope string_scope.
Local Open Scope Z_scope.
Local Open Scope list_scope.

(** ** JavaScript values *)

Set Warnings "-register-all".

Inductive JsValue : Type :=
| JUndefined
| JNull
| JBool (b : bool)
| JNum (n : Z)
| JStr (s : string)
| JDate (t : Z)
| JBlob (json : string)   (* a jsonb column, carried as stored, never inspected *)
| JObj (fields : list (string * JsValue)).

Module Js.

(** [o.k]: the first field named [k], [undefined] when there is none. *)
Fixpoint assoc (k : string) (fields : list (string * JsValue)) : JsValue :=
  match fields with
  | [] => JUndefined
  | (k', v) :: rest => if String.eqb k k' then v else assoc k rest
  end.

Definition get (k : string) (v : JsValue) : JsValue :=
  match v with
  | JObj fields => assoc k fields
  | _ => JUndefined
  end.

(** [const { k: _, ...rest } = o]: every own field but [k]. *)
Definition omit (k : string) (v : JsValue) : JsValue :=
  match v with
  | JObj fields => JObj (filter (fun kv => negb (String.eqb k (fst kv))) fields)
  | other => other
  end.

(** The truthiness test of [if (v)] and [!v]. *)
Definition truthy (v : JsValue) : bool :=
  match v with
  | JUndefined | JNull => false
  | JBool b => b
  | JNum n => negb (n =? 0)
  | JStr s => negb (String.eqb s EmptyString)
  | JDate _ | JBlob _ | JObj _ => true
  end.

(** Truthiness of an optional string ([undefined] or a string). *)
Definition truthy_str (o : option string) : bool :=
  match o with
  | Some s => negb (String.eqb s EmptyString)
  | None => false
  end.

(** The string of an optional string that passed the truthiness test. *)
Definition str (o : option string) : string :=
  match o with Some s => s | None => EmptyString end.

Definition of_opt_str (o : option string) : JsValue :=
  match o with Some s => JStr s | None => JNull end.

Definition of_opt_date (o : option Z) : JsValue :=
  match o with Some t => JDate t | None => JNull end.

(** Does a field named [k] occur in [v], at any depth? *)
Fixpoint mentions (k : string) (v : JsValue) : bool :=
  match v with
  | JObj fields =>
      existsb (fun kv => let '(k', v') := kv in
                         String.eqb k k' || mentions k v') fields
  | _ => false
  end.

End Js.

(** ** Table rows ([@shared/schema]: columns as the code names them) *)

Module User.
Record t : Type := mk {
  id : Z;
  username : string;
  email : string;
  password : string;
  fullName : option string;
  phone : option string;
  avatar : option string;
  organizationId : Z;
  roleId : Z;
  isActive : bool;
  lastLogin : option Z;
  createdAt : Z;
  updatedAt : Z
}.
End User.

Module Organization.
Record t : Type := mk {
  id : Z;
  name : string;
  subdomain : string;
  settings : string;
  isActive : bool;
  createdAt : Z;
  updatedAt : Z
}.
End Organization.

Module UserRole.
Record t : Type := mk {
  id : Z;
  name : string;
  description : string;
  permissions : option (list string);   (* a nullable text array *)
  organizationId : Z
}.
End UserRole.

(** The database: three tables, their serial-key sequences and the server
    clock that fills [createdAt]/[updatedAt]. *)
Record Db : Type := mkDb {
  users : list User.t;
  organizations : list Organization.t;
  userRoles : list UserRole.t;
  users_seq : Z;
  organizations_seq : Z;
  userRoles_seq : Z;
  db_now : Z
}.

(** Rows written by a statement, for the journal. *)
Inductive Write : Type :=
| InsOrganization (o : Organization.t)
| InsUserRole (r : UserRole.t)
| InsUser (u : User.t)
| UpdLastLogin (uid : Z) (t : Z).

(** ** Errors, the world and the monad of [async] code *)

Inductive Error : Type :=
| StorageError (msg : string)   (* a rejected database promise *)
| JsError (msg : string)        (* [throw new Error(msg)] *)
| TypeError (msg : string).     (* a property read or written on [undefined] *)

Definition Result (A : Type) : Type := (Error + A)%type.

Record World : Type := mkWorld {
  db : Db;
  faults : list bool;                 (* [true]: the next statement is rejected *)
  clock : Z;                          (* [new Date()] *)
  console : list (string * Error);    (* [console.error] calls, oldest first *)
  journal : list Write                (* rows written, oldest first *)
}.

Definition M (A : Type) : Type := World -> Result A * World.

Definition ret {A} (a : A) : M A := fun w => (inr a, w).

Definition bind {A B} (m : M A) (k : A -> M B) : M B :=
  fun w => match m w with
           | (inr a, w') => k a w'
           | (inl e, w') => (inl e, w')
           end.

Definition throw {A} (e : Error) : M A := fun w => (inl e, w).

(** [try { body } catch (error) { handler }]: what [body] did to the world
    before it threw stays done. *)
Definition try_catch {A} (body : M A) (handler : Error -> M A) : M A :=
  fun w => match body w with
           | (inr a, w') => (inr a, w')
           | (inl e, w') => handler e w'
           end.

Definition lift {A} (r : Result A) : M A := fun w => (r, w).

Definition console_error (label : string) (e : Error) : M unit :=
  fun w => (inr tt, mkWorld (db w) (faults w) (clock w)
                            (console w ++ [(label, e)]) (journal w)).

Definition new_Date : M Z := fun w => (inr (clock w), w).

Declare Scope async_scope.
Delimit Scope async_scope with async.
Notation "x <- c ;; k" := (bind c (fun x => k))
  (at level 61, c at next level, right associativity) : async_scope.
Notation "c ;; k" := (bind c (fun _ => k))
  (at level 61, right associativity) : async_scope.
Local Open Scope async_scope.

(** One awaited database statement.  It consumes one entry of the fault
    schedule; a scheduled fault rejects the promise and leaves the tables as
    they were, otherwise [op] runs on the tables and may itself be rejected
    (a violated constraint). *)
Definition statement {A} (op : Db -> Result (A * Db * list Write)) : M A :=
  fun w =>
    match faults w with
    | true :: rest =>
        (inl (StorageError "statement rejected"),
         mkWorld (db w) rest (clock w) (console w) (journal w))
    | _ =>
        let rest := tl (faults w) in
        match op (db w) with
        | inl e => (inl e, mkWorld (db w) rest (clock w) (console w) (journal w))
        | inr (a, d, ws) =>
            (inr a, mkWorld d rest (clock w) (console w) (journal w ++ ws))
        end
    end.

(** A read-only statement. *)
Definition query {A} (q : Db -> A) : M A :=
  statement (fun d => inr (q d, d, [])).

(** ** What the code imports

    [bcryptjs] is a library: its two functions are taken as an interface.
    Both return a promise, which may be rejected. *)
Class Bcrypt : Type := {
  bcrypt_hash : string -> Z -> Result string;
  bcrypt_compare : string -> string -> Result bool
}.

(** Column defaults of [@shared/schema], which the inserts of the code leave
    to the database. *)
Class ColumnDefaults : Type := {
  default_user_isActive : bool;
  default_organization_isActive : bool;
  default_organization_settings : string
}.

(** ** Projections and statements of [src/unnamed/part_000] *)

Module Sql.

(** The nested [organization: { ... }] object of the three joins. *)
Definition organization_columns (o : Organization.t) : JsValue :=
  JObj [ ("id", JNum (Organization.id o));
         ("name", JStr (Organization.name o));
         ("subdomain", JStr (Organization.subdomain o));
         ("settings", JBlob (Organization.settings o));
         ("isActive", JBool (Organization.isActive o));
         ("createdAt", JDate (Organization.createdAt o));
         ("updatedAt", JDate (Organization.updatedAt o)) ].

(** The projection of [authenticateUser] (lines 34-57): it selects
    [password]. *)
Definition columns_with_password (row : User.t * Organization.t) : JsValue :=
  let '(u, o) := row in
  JObj [ ("id", JNum (User.id u));
         ("username", JStr (User.username u));
         ("email", JStr (User.email u));
         ("password", JStr (User.password u));
         ("fullName", Js.of_opt_str (User.fullName u));
         ("phone", Js.of_opt_str (User.phone u));
         ("avatar", Js.of_opt_str (User.avatar u));
         ("organizationId", JNum (User.organizationId u));
         ("roleId", JNum (User.roleId u));
         ("isActive", JBool (User.isActive u));
         ("lastLogin", Js.of_opt_date (User.lastLogin u));
         ("createdAt", JDate (User.createdAt u));
         ("updatedAt", JDate (User.updatedAt u));
         ("organization", organization_columns o) ].

(** The projection of [registerUser] (lines 157-179) and of
    [loadUserContext] (lines 249-271): no [password]. *)
Definition columns (row : User.t * Organization.t) : JsValue :=
  let '(u, o) := row in
  JObj [ ("id", JNum (User.id u));
         ("username", JStr (User.username u));
         ("email", JStr (User.email u));
         ("fullName", Js.of_opt_str (User.fullName u));
         ("phone", Js.of_opt_str (User.phone u));
         ("avatar", Js.of_opt_str (User.avatar u));
         ("organizationId", JNum (User.organizationId u));
         ("roleId", JNum (User.roleId u));
         ("isActive", JBool (User.isActive u));
         ("lastLogin", Js.of_opt_date (User.lastLogin u));
         ("createdAt", JDate (User.createdAt u));
         ("updatedAt", JDate (User.updatedAt u));
         ("organization", organization_columns o) ].

(** [.from(users).innerJoin(organizations,
      eq(users.organizationId, organizations.id))].
    SQL leaves the order of the joined rows open; the model takes the
    users in table order, each with its organizations in table order. *)
Definition innerJoin (d : Db) : list (User.t * Organization.t) :=
  flat_map
    (fun u => map (pair u)
                  (filter (fun o => User.organizationId u =? Organization.id o)
                          (organizations d)))
    (users d).

(** [.limit(1)] followed by [const [x] = ...]. *)
Definition limit1 {A} (rows : list A) : option A := hd_error rows.

(** [where(and(eq(users.email, email), eq(users.isActive, true),
               eq(organizations.isActive, true)))]. *)
Definition active_with_email (email : string)
    (row : User.t * Organization.t) : bool :=
  String.eqb (User.email (fst row)) email
  && Bool.eqb (User.isActive (fst row)) true
  && Bool.eqb (Organization.isActive (snd row)) true.

Definition with_id (uid : Z) (row : User.t * Organization.t) : bool :=
  User.id (fst row) =? uid.

(** Lines 33-65. *)
Definition select_login_row (email : string) (d : Db)
    : option (User.t * Organization.t) :=
  limit1 (filter (active_with_email email) (innerJoin d)).

(** Lines 156-183 and 248-275. *)
Definition select_by_id (uid : Z) (d : Db) : option (User.t * Organization.t) :=
  limit1 (filter (with_id uid) (innerJoin d)).

(** Lines 98-102: [select({ id: users.id })]; the one-column object is
    carried as the identifier itself. *)
Definition select_id_by_email (email : string) (d : Db) : option Z :=
  limit1 (map User.id
              (filter (fun u => String.eqb (User.email u) email) (users d))).

(** Lines 133-140. *)
Definition select_admin_role (organizationId : Z) (d : Db) : option Z :=
  limit1 (map UserRole.id
              (filter (fun r => (UserRole.organizationId r =? organizationId)
                                && String.eqb (UserRole.name r) "admin")
                      (userRoles d))).

(** Lines 209-216: [select({ name, permissions })]. *)
Definition select_role (roleId : Z) (d : Db)
    : option (string * option (list string)) :=
  limit1 (map (fun r => (UserRole.name r, UserRole.permissions r))
              (filter (fun r => UserRole.id r =? roleId) (userRoles d))).

(** The same lookup by the value found in [req.user.roleId]:
    [eq(userRoles.id, v)] with a [v] that is not a number (a null
    reference) matches no row. *)
Definition select_role_of (reference : JsValue) (d : Db)
    : option (string * option (list string)) :=
  match reference with
  | JNum roleId => select_role roleId d
  | _ => None
  end.

(** Lines 73-76. *)
Definition update_lastLogin (uid : Z) (t : Z) (d : Db)
    : Result (unit * Db * list Write) :=
  let touch (u : User.t) :=
    if User.id u =? uid
    then User.mk (User.id u) (User.username u) (User.email u)
                 (User.password u) (User.fullName u) (User.phone u)
                 (User.avatar u) (User.organizationId u) (User.roleId u)
                 (User.isActive u) (Some t) (User.createdAt u)
                 (User.updatedAt u)
    else u in
  inr (tt,
       mkDb (map touch (users d)) (organizations d) (userRoles d)
            (users_seq d) (organizations_seq d) (userRoles_seq d) (db_now d),
       [UpdLastLogin uid t]).

Section Inserts.
Context {defaults : ColumnDefaults}.

(** Lines 111-117.  Modelled from the spec: the schema is not part of
    the sources; the data model makes [subdomain] unique, identifiers
    are serial keys. *)
Definition insert_organization (name subdomain : string) (d : Db)
    : Result (Z * Db * list Write) :=
  if existsb (fun o => String.eqb (Organization.subdomain o) subdomain)
             (organizations d)
  then inl (StorageError "duplicate key: organizations.subdomain")
  else
    let o := Organization.mk (organizations_seq d) name subdomain
               default_organization_settings default_organization_isActive
               (db_now d) (db_now d) in
    inr (Organization.id o,
         mkDb (users d) (organizations d ++ [o]) (userRoles d)
              (users_seq d) (organizations_seq d + 1) (userRoles_seq d)
              (db_now d),
         [InsOrganization o]).

(** Lines 122-127. *)
Definition insert_userRole (name description : string)
    (permissions : list string) (organizationId : Z) (d : Db)
    : Result (unit * Db * list Write) :=
  let r := UserRole.mk (userRoles_seq d) name description
             (Some permissions) organizationId in
  inr (tt,
       mkDb (users d) (organizations d) (userRoles d ++ [r])
            (users_seq d) (organizations_seq d) (userRoles_seq d + 1)
            (db_now d),
       [InsUserRole r]).

(** Lines 143-153, [.returning()] gives the whole new row.  Modelled
    from the spec: the data model makes [email] unique. *)
Definition insert_user (email password username : string)
    (fullName : option string) (organizationId roleId : Z) (d : Db)
    : Result (User.t * Db * list Write) :=
  if existsb (fun u => String.eqb (User.email u) email) (users d)
  then inl (StorageError "duplicate key: users.email")
  else
    let u := User.mk (users_seq d) username email password fullName
               None None organizationId roleId default_user_isActive
               None (db_now d) (db_now d) in
    inr (u,
         mkDb (users d ++ [u]) (organizations d) (userRoles d)
              (users_seq d + 1) (organizations_seq d) (userRoles_seq d)
              (db_now d),
         [InsUser u]).
End Inserts.

End Sql.

(** ** Requests and responses *)

Record Session : Type := mkSession {
  userId : option Z                   (* [req.session.userId], a number *)
}.

(** [req.body] of the two POST routes that read it: each field is a string
    or is missing. *)
Record Body : Type := mkBody {
  body_email : option string;
  body_password : option string;
  body_username : option string;
  body_fullName : option string;
  body_organizationName : option string;
  body_organizationSubdomain : option string
}.

Record Request : Type := mkRequest {
  body : Body;
  session : option Session;           (* [req.session], may be [undefined] *)
  user : option JsValue               (* [req.user], [undefined] until attached *)
}.

(** What a middleware or a route handler does with the request: call
    [next()], answer with [res.status(s).json(b)], or return without doing
    either. *)
Inductive Outcome : Type :=
| Next
| Respond (status : Z) (json : JsValue)
| NoResponse.

Definition Handler : Type := Request -> M (Outcome * Request).

Definition message (text : string) : JsValue := JObj [("message", JStr text)].

Definition set_session_userId (uid : option Z) (req : Request) : Request :=
  mkRequest (body req)
            (match session req with
             | Some _ => Some (mkSession uid)
             | None => None
             end)
            (user req).

Definition set_user (u : JsValue) (req : Request) : Request :=
  mkRequest (body req) (session req) (Some u).

(** [req.session?.userId], tested for truthiness: a number other than 0. *)
Definition session_userId (req : Request) : option Z :=
  match session req with
  | Some s => match userId s with
              | Some n => if n =? 0 then None else Some n
              | None => None
              end
  | None => None
  end.

(** Reading a field that the static types make a string, or a number. *)
Definition string_of (v : JsValue) : M string :=
  match v with
  | JStr s => ret s
  | _ => throw (TypeError "not a string")
  end.

Definition number_of (v : JsValue) : M Z :=
  match v with
  | JNum n => ret n
  | _ => throw (TypeError "not a number")
  end.

(** [permissions && permissions.includes(x)]. *)
Definition includes (permissions : option (list string)) (x : string) : bool :=
  match permissions with
  | Some ps => existsb (String.eqb x) ps
  | None => false
  end.

(** ** [AuthService] and the middlewares ([src/unnamed/part_000]) *)

Section Auth.
Context {bcrypt : Bcrypt} {defaults : ColumnDefaults}.

Record UserData : Type := mkUserData {
  email : string;
  password : string;
  username : string;
  fullName : option string;
  organizationName : option string;
  organizationSubdomain : option string
}.

(** Lines 21-24. *)
Definition hashPassword (password : string) : M string :=
  let saltRounds := 12 in
  lift (bcrypt_hash password saltRounds).

(** Lines 26-28. *)
Definition comparePassword (password hash : string) : M bool :=
  lift (bcrypt_compare password hash).

(** Lines 30-84. *)
Definition authenticateUser (email password : string) : M (option JsValue) :=
  try_catch
    (userWithOrg <- query (fun d => option_map Sql.columns_with_password
                                      (Sql.select_login_row email d)) ;;
     match userWithOrg with
     | None => ret None
     | Some userWithOrg =>
         hash <- string_of (Js.get "password" userWithOrg) ;;
         isPasswordValid <- comparePassword password hash ;;
         if negb isPasswordValid then ret None
         else
           now <- new_Date ;;
           id <- number_of (Js.get "id" userWithOrg) ;;
           statement (Sql.update_lastLogin id now) ;;
           let userWithoutPassword := Js.omit "password" userWithOrg in
           ret (Some userWithoutPassword)
     end)
    (fun error => console_error "Authentication error:" error ;; ret None).

(** Lines 86-190.  [null] and a missing first row ([undefined]) are both
    [None]. *)
Definition registerUser (userData : UserData) : M (option JsValue) :=
  try_catch
    (hashedPassword <- hashPassword (password userData) ;;
     existingUser <- query (Sql.select_id_by_email (email userData)) ;;
     match existingUser with
     | Some _ => throw (JsError "User with this email already exists")
     | None =>
         organizationId <-
           (if Js.truthy_str (organizationName userData)
               && Js.truthy_str (organizationSubdomain userData)
            then
              newOrg <- statement
                          (Sql.insert_organization
                             (Js.str (organizationName userData))
                             (Js.str (organizationSubdomain userData))) ;;
              let organizationId := newOrg in
              statement (Sql.insert_userRole "admin" "Organization Administrator"
                                             ["*"] organizationId) ;;
              ret organizationId
            else throw (JsError "Organization information is required")) ;;
         adminRole <- query (Sql.select_admin_role organizationId) ;;
         match adminRole with
         | None => throw (TypeError "adminRole is undefined")
         | Some adminRole_id =>
             newUser <- statement (Sql.insert_user (email userData) hashedPassword
                                     (username userData) (fullName userData)
                                     organizationId adminRole_id) ;;
             userWithOrg <- query (fun d => option_map Sql.columns
                                              (Sql.select_by_id (User.id newUser) d)) ;;
             ret userWithOrg
         end
     end)
    (fun error => console_error "Registration error:" error ;; ret None).

(** Lines 194-199. *)
Definition requireAuth : Handler := fun req =>
  match session_userId req with
  | None => ret (Respond 401 (message "Authentication required"), req)
  | Some _ => ret (Next, req)
  end.

(** Lines 202-242. *)
Definition requireRole (requiredRoles : list string) : Handler := fun req =>
  match user req with
  | None => ret (Respond 401 (message "Authentication required"), req)
  | Some req_user =>
      try_catch
        (userRole <- query (Sql.select_role_of (Js.get "roleId" req_user)) ;;
         match userRole with
         | None => ret (Respond 403 (message "No role found"), req)
         | Some (name, permissions) =>
             if includes permissions "*" then ret (Next, req)
             else
               let hasRequiredRole :=
                 existsb (fun role => String.eqb name role
                                      || includes permissions role)
                         requiredRoles in
               if negb hasRequiredRole
               then ret (Respond 403 (message "Insufficient permissions"), req)
               else ret (Next, req)
         end)
        (fun error =>
           console_error "Role check error:" error ;;
           ret (Respond 500 (message "Authorization error"), req))
  end.

(** Lines 245-289. *)
Definition loadUserContext : Handler := fun req =>
  req' <- match session_userId req with
          | Some uid =>
              try_catch
                (userWithOrg <- query (fun d => option_map Sql.columns
                                                  (Sql.select_by_id uid d)) ;;
                 match userWithOrg with
                 | Some userWithOrg =>
                     if Js.truthy (Js.get "isActive" userWithOrg)
                        && Js.truthy (Js.get "isActive"
                                        (Js.get "organization" userWithOrg))
                     then ret (set_user userWithOrg req)
                     else ret (set_session_userId None req)
                 | None => ret (set_session_userId None req)
                 end)
                (fun error =>
                   console_error "User context loading error:" error ;;
                   ret (set_session_userId None req))
          | None => ret req
          end ;;
  ret (Next, req').
End Auth.

(** ** The auth routes of [registerRoutes] ([src/server/index.ts]) *)

Section Routes.
Context {bcrypt : Bcrypt} {defaults : ColumnDefaults}.

(** The object literal of lines 139, 160 and 180. *)
Definition user_json (user : JsValue) : JsValue :=
  JObj [ ("user",
          JObj [ ("id", Js.get "id" user);
                 ("email", Js.get "email" user);
                 ("username", Js.get "username" user);
                 ("fullName", Js.get "fullName" user);
                 ("organization", Js.get "organization" user) ]) ].

(** [req.session!.userId = user.id]. *)
Definition bind_session (user : JsValue) (req : Request) : M Request :=
  match session req with
  | None => throw (TypeError "req.session is undefined")
  | Some _ =>
      id <- number_of (Js.get "id" user) ;;
      ret (set_session_userId (Some id) req)
  end.

(** The argument of [AuthService.registerUser] at lines 125-132. *)
Definition register_data (b : Body) : UserData :=
  mkUserData (Js.str (body_email b)) (Js.str (body_password b))
             (Js.str (body_username b)) (body_fullName b)
             (body_organizationName b) (body_organizationSubdomain b).

(** Lines 113-144. *)
Definition post_register : Handler := fun req =>
  try_catch
    (let b := body req in
     if negb (Js.truthy_str (body_email b))
        || negb (Js.truthy_str (body_password b))
        || negb (Js.truthy_str (body_username b))
     then ret (Respond 400 (message "Email, password, and username are required"), req)
     else if negb (Js.truthy_str (body_organizationName b))
             || negb (Js.truthy_str (body_organizationSubdomain b))
     then ret (Respond 400 (message "Organization name and subdomain are required"), req)
     else
       user <- registerUser (register_data b) ;;
       match user with
       | None => ret (Respond 400 (message "Registration failed"), req)
       | Some user =>
           req' <- bind_session user req ;;
           ret (Respond 200 (user_json user), req')
       end)
    (fun error =>
       console_error "Registration error:" error ;;
       ret (Respond 500 (message "Registration failed"), req)).

(** Lines 146-165. *)
Definition post_login : Handler := fun req =>
  try_catch
    (let b := body req in
     if negb (Js.truthy_str (body_email b))
        || negb (Js.truthy_str (body_password b))
     then ret (Respond 400 (message "Email and password are required"), req)
     else
       user <- authenticateUser (Js.str (body_email b))
                                (Js.str (body_password b)) ;;
       match user with
       | None => ret (Respond 401 (message "Invalid credentials"), req)
       | Some user =>
           req' <- bind_session user req ;;
           ret (Respond 200 (user_json user), req')
       end)
    (fun error =>
       console_error "Login error:" error ;;
       ret (Respond 500 (message "Login failed"), req)).

(** Lines 167-176.  [session.destroy] of express-session removes
    [req.session] first and then asks the store, which is reached through
    the same connection pool (one statement), to forget the session: the
    callback finds the request without its session whether the store
    failed or not. *)
Definition post_logout : Handler := fun req =>
  match session req with
  | None => ret (NoResponse, req)
  | Some _ =>
      let destroyed := mkRequest (body req) None (user req) in
      try_catch
        (statement (fun d => inr (tt, d, [])) ;;
         ret (Respond 200 (message "Logged out successfully"), destroyed))
        (fun err =>
           console_error "Logout error:" err ;;
           ret (Respond 500 (message "Logout failed"), destroyed))
  end.

(** Lines 178-184, the handler behind [requireAuth]. *)
Definition get_me : Handler := fun req =>
  match user req with
  | Some req_user => ret (Respond 200 (user_json req_user), req)
  | None => ret (Respond 401 (message "Not authenticated"), req)
  end.

(** Middlewares run in the order they were installed, up to the first
    that does not call [next()]. *)
Fixpoint chain (handlers : list Handler) (req : Request)
    : M (Outcome * Request) :=
  match handlers with
  | [] => ret (Next, req)
  | h :: rest =>
      r <- h req ;;
      match r with
      | (Next, req') => chain rest req'
      | answered => ret answered
      end
  end.

(** A request as it reaches [loadUserContext]: nothing attached yet. *)
Definition incoming (b : Body) (s : option Session) : Request :=
  mkRequest b s None.

(** [app.use(loadUserContext)] comes before every route. *)
Definition POST_api_auth_register (b : Body) (s : option Session) :=
  chain [loadUserContext; post_register] (incoming b s).
Definition POST_api_auth_login (b : Body) (s : option Session) :=
  chain [loadUserContext; post_login] (incoming b s).
Definition POST_api_auth_logout (b : Body) (s : option Session) :=
  chain [loadUserContext; post_logout] (incoming b s).
Definition GET_api_auth_me (b : Body) (s : option Session) :=
  chain [loadUserContext; requireAuth; get_me] (incoming b s).
End Routes.

(** ** The request logger and the error handler ([src/server/index.ts]) *)

(** A JavaScript string as its UTF-16 code units: the logger appends the
    character U+2026, which is one unit. *)
Definition ustring : Type := list N.

Definition units (s : string) : ustring :=
  map N_of_ascii (list_ascii_of_string s).

(** The template literal rendering of an integer. *)
Definition decimal (n : Z) : ustring :=
  units (NilZero.string_of_int (Z.to_int n)).

Definition ellipsis : ustring := [8230%N].

(** [s.startsWith(prefix)]. *)
Fixpoint startsWith (s prefix : ustring) : bool :=
  match prefix, s with
  | [], _ => true
  | p :: prefix', c :: s' => N.eqb p c && startsWith s' prefix'
  | _ :: _, [] => false
  end.

(** Lines 54-56. *)
Definition truncate (logLine : ustring) : ustring :=
  if (80 <? length logLine)%nat
  then firstn 79 logLine ++ ellipsis
  else logLine.

Section Logger.
Context (JSON_stringify : JsValue -> ustring).

(** Lines 49-52. *)
Definition full_line (method pathStr : ustring) (statusCode duration : Z)
    (capturedJsonResponse : option JsValue) : ustring :=
  let logLine :=
    method ++ units " " ++ pathStr ++ units " " ++ decimal statusCode
           ++ units " in " ++ decimal duration ++ units "ms" in
  match capturedJsonResponse with
  | Some bodyJson =>
      if Js.truthy bodyJson
      then logLine ++ units " :: " ++ JSON_stringify bodyJson
      else logLine
  | None => logLine
  end.

(** Lines 46-60, the [finish] listener: what it passes to [log], if
    anything. *)
Definition on_finish (method pathStr : ustring) (statusCode duration : Z)
    (capturedJsonResponse : option JsValue) : option ustring :=
  if startsWith pathStr (units "/api")
  then Some (truncate (full_line method pathStr statusCode duration
                                 capturedJsonResponse))
  else None.
End Logger.






(** ** The search and assistant routes ([src/server/index.ts]) *)



Section Search.
(** The four search functions of the storage module, which is not among the
    sources. *)
Context (searchLeads searchTickets searchDeals searchProjects : string -> M JsValue).


End Search.

Section Chat.
(** [processLocalAIMessage] of [./localAI] and [String.prototype.trim]:
    neither is among the sources. *)
Context (processLocalAIMessage : string -> M JsValue) (trim : string -> string).

Definition apology : JsValue :=
  JObj [ ("action", JStr "respond");
         ("message", JStr "I'm sorry, I encountered an error. Please try again.") ].

(** Lines 711-729.  Only a string has a [trim] method. *)
Definition post_ai_chat (body_message : JsValue) : M Outcome :=
  try_catch
    (if negb (Js.truthy body_message)
     then ret (Respond 400 (message "Message is required"))
     else
       trimmed <- match body_message with
                  | JStr s => ret (trim s)
                  | _ => throw (TypeError "message.trim is not a function")
                  end ;;
       result <- processLocalAIMessage trimmed ;;
       ret (Respond 200 result))
    (fun error =>
       console_error "Local AI Chat error:" error ;;
       ret (Respond 200 apology)).
End Chat.

(** ** Vocabulary of the properties *)

(** The next statement is not rejected by the fault schedule. *)
Definition next_ok (w : World) : Prop := hd false (faults w) = false.

(** The world once a statement that left the tables alone has run. *)
Definition after_statement (w : World) : World :=
  mkWorld (db w) (tl (faults w)) (clock w) (console w) (journal w).

(** The permission strings of a role; none when the column is null. *)
Definition permission_set (permissions : option (list string)) : list string :=
  match permissions with Some ps => ps | None => [] end.

(** The role that [requireRole] finds for the identity attached to [req]:
    the lookup by [req.user.roleId] is answered with [name], [permissions]. *)
Definition gate_finds (req : Request) (w : World)
    (name : string) (permissions : option (list string)) : Prop :=
  exists req_user roleId,
    user req = Some req_user /\
    Js.get "roleId" req_user = JNum roleId /\
    next_ok w /\
    Sql.select_role roleId (db w) = Some (name, permissions).

(** The lookup is answered, with no row. *)
Definition gate_finds_nothing (req : Request) (w : World) : Prop :=
  exists req_user,
    user req = Some req_user /\
    next_ok w /\
    Sql.select_role_of (Js.get "roleId" req_user) (db w) = None.

Definition passes (requiredRoles : list string) (req : Request) (w : World) : Prop :=
  fst (requireRole requiredRoles req w) = inr (Next, req).

Definition denied (requiredRoles : list string) (req : Request) (w : World) : Prop :=
  fst (requireRole requiredRoles req w) =
    inr (Respond 403 (message "Insufficient permissions"), req).

(** An identity is attached and the lookup itself is rejected by the
    storage. *)
Definition gate_lookup_raises (req : Request) (w : World) : Prop :=
  user req <> None /\ exists rest, faults w = true :: rest.

Definition status_of (r : Result (Outcome * Request)) : option Z :=
  match r with
  | inr (Respond s _, _) => Some s
  | _ => None
  end.

Definition client_error (s : Z) : bool := (400 <=? s) && (s <? 500).
Definition server_error (s : Z) : bool := (500 <=? s) && (s <? 600).

(** [requireRole] answers with a status of the 5xx class. *)
Definition answered_as_server_error (requiredRoles : list string)
    (req : Request) (w : World) : Prop :=
  exists s, status_of (fst (requireRole requiredRoles req w)) = Some s /\
            server_error s = true.

(** The storage rejects neither of the two statements of a login: the
    lookup and the update of [lastLogin]. *)
Definition login_statements_run (w : World) : Prop :=
  next_ok w /\ next_ok (after_statement w).

(** The keys of the data model: [email] is unique among users, the
    identifier is unique among organizations. *)
Definition keys_unique (d : Db) : Prop :=
  NoDup (map User.email (users d)) /\
  NoDup (map Organization.id (organizations d)).

(** Foreign key and serial keys: every role points at an organization whose
    identifier the sequence has already handed out. *)
Definition roles_reference_issued (d : Db) : Prop :=
  forallb (fun r => UserRole.organizationId r <? organizations_seq d)
          (userRoles d) = true.

Section Vocabulary.
Context {bcrypt : Bcrypt}.

(** A stored user with this exact email, active, in an active
    organization, whose stored hash verifies against [password]. *)
Definition valid_login (d : Db) (email password : string)
    (u : User.t) (o : Organization.t) : Prop :=
  In u (users d) /\ In o (organizations d) /\
  User.organizationId u = Organization.id o /\
  User.email u = email /\
  User.isActive u = true /\ Organization.isActive o = true /\
  bcrypt_compare password (User.password u) = inr true.
End Vocabulary.

(** The request carries a session-bound user identifier. *)
Definition carries (req : Request) (uid : Z) : Prop :=
  session req = Some (mkSession (Some uid)) /\ uid <> 0.

(** What the fetch of [loadUserContext] gives: nothing when the storage
    rejects the statement, else the first joined row with this identifier. *)
Definition fetch (uid : Z) (w : World) : option (User.t * Organization.t) :=
  match faults w with
  | true :: _ => None
  | _ => Sql.select_by_id uid (db w)
  end.

(** The body passes the two presence tests of the register route. *)
Definition complete_registration (b : Body) : Prop :=
  Js.truthy_str (body_email b) = true /\
  Js.truthy_str (body_password b) = true /\
  Js.truthy_str (body_username b) = true /\
  Js.truthy_str (body_organizationName b) = true /\
  Js.truthy_str (body_organizationSubdomain b) = true.

(** No field named [password], at any depth. *)
Definition password_free (v : JsValue) : Prop := Js.mentions "password" v = false.

Definition identity_password_free (r : Result (option JsValue) * World) : Prop :=
  match fst r with
  | inr (Some identity) => password_free identity
  | _ => True
  end.

Definition attached_password_free (r : Result (Outcome * Request) * World) : Prop :=
  match fst r with
  | inr (_, req) => match user req with
                    | Some ident => password_free ident
                    | None => True
                    end
  | inl _ => True
  end.

Definition response_password_free (r : Result (Outcome * Request) * World) : Prop :=
  match fst r with
  | inr (Respond _ json, _) => password_free json
  | _ => True
  end.

(** ** Integrity of the tables *)

(** The user row after a login at time [t]. *)
Definition logged_in_at (t : Z) (u : User.t) : User.t :=
  User.mk (User.id u) (User.username u) (User.email u) (User.password u)
          (User.fullName u) (User.phone u) (User.avatar u)
          (User.organizationId u) (User.roleId u) (User.isActive u)
          (Some t) (User.createdAt u) (User.updatedAt u).

(** Every identifier in a table was handed out by its sequence. *)
Definition serial_keys (d : Db) : Prop :=
  (forall u, In u (users d) -> User.id u < users_seq d) /\
  (forall o, In o (organizations d) -> Organization.id o < organizations_seq d) /\
  (forall r, In r (userRoles d) -> UserRole.id r < userRoles_seq d).

Definition primary_keys (d : Db) : Prop :=
  NoDup (map User.id (users d)) /\
  NoDup (map Organization.id (organizations d)) /\
  NoDup (map UserRole.id (userRoles d)).

Definition unique_columns (d : Db) : Prop :=
  NoDup (map User.email (users d)) /\
  NoDup (map Organization.subdomain (organizations d)).

(** Users point at a stored organization and a stored role, roles at a
    stored organization. *)
Definition foreign_keys (d : Db) : Prop :=
  (forall u, In u (users d) ->
     In (User.organizationId u) (map Organization.id (organizations d)) /\
     In (User.roleId u) (map UserRole.id (userRoles d))) /\
  (forall r, In r (userRoles d) ->
     In (UserRole.organizationId r) (map Organization.id (organizations d))).

(** The role of a user belongs to the organization of the user. *)
Definition tenant_scoped (d : Db) : Prop :=
  forall u r, In u (users d) -> In r (userRoles d) ->
              UserRole.id r = User.roleId u ->
              UserRole.organizationId r = User.organizationId u.

Definition db_wf (d : Db) : Prop :=
  serial_keys d /\ primary_keys d /\ unique_columns d /\
  foreign_keys d /\ tenant_scoped d.

(** The tables after the login of user [uid] at time [t]: the rows with
    this identifier carry the time, everything else is as it was. *)
Definition stamped (uid t : Z) (d : Db) : Db :=
  mkDb (map (fun u => if User.id u =? uid then logged_in_at t u else u) (users d))
       (organizations d) (userRoles d)
       (users_seq d) (organizations_seq d) (userRoles_seq d) (db_now d).

(** ** A small instance, to run the definitions on *)

Module Sample.

(** A stand-in for bcrypt: the hash of [p] is [p] behind a fixed prefix. *)
#[export] Instance bcrypt : Bcrypt := {|
  bcrypt_hash := fun s _ => inr ("$2a$12$" ++ s)%string;
  bcrypt_compare := fun s hash => inr (String.eqb ("$2a$12$" ++ s)%string hash)
|}.

#[export] Instance defaults : ColumnDefaults := {|
  default_user_isActive := true;
  default_organization_isActive := true;
  default_organization_settings := "{}"
|}.

Definition acme : Organization.t :=
  Organization.mk 1 "Acme" "acme" "{}" true 100 100.

Definition admin : UserRole.t :=
  UserRole.mk 1 "admin" "Organization Administrator" (Some ["*"]) 1.

Definition viewer : UserRole.t :=
  UserRole.mk 2 "viewer" "Read only" (Some ["read"]) 1.

Definition alice : User.t :=
  User.mk 1 "a" "a@x.com" "$2a$12$pw123456" None None None 1 1 true None 100 100.

Definition bob : User.t :=
  User.mk 2 "b" "b@x.com" "$2a$12$hunter22" (Some "Bob") None None 1 2 true None 100 100.

(** A deactivated account. *)
Definition carol : User.t :=
  User.mk 4 "c" "carol@x.com" "$2a$12$letmein" None None None 1 2 false None 100 100.

Definition tables : Db := mkDb [alice; bob; carol] [acme] [admin; viewer] 5 2 3 200.

Definition world (schedule : list bool) : World :=
  mkWorld tables schedule 300 [] [].

Definition no_body : Body := mkBody None None None None None None.

(** A request of [bob], as [loadUserContext] leaves it. *)
Definition bob_request : Request :=
  mkRequest no_body (Some (mkSession (Some 2))) (Some (Sql.columns (bob, acme))).

(** A fresh request with the session of [carol]. *)
Definition carol_request : Request :=
  mkRequest no_body (Some (mkSession (Some 4))) None.

(** The registration of section 8 of the specification, for a new
    address. *)
Definition newcomer : Body :=
  mkBody (Some "n@x.com") (Some "pw123456") (Some "n") None
         (Some "Newco") (Some "newco").

(** The same, for the address of [alice]. *)
Definition again : Body :=
  mkBody (Some "a@x.com") (Some "pw123456") (Some "a") None
         (Some "Acme2") (Some "acme2").

(** A request whose identity points at a role that is not there. *)
Definition stray : User.t :=
  User.mk 3 "c" "c@x.com" "$2a$12$secret" None None None 1 9 true None 100 100.

Definition stray_request : Request :=
  mkRequest no_body (Some (mkSession (Some 3))) (Some (Sql.columns (stray, acme))).

End Sample.

(** * Properties *)

(** ** How statements run *)

Lemma statement_rejected {A} (op : Db -> Result (A * Db * list Write)) w rest :
  faults w = true :: rest ->
  statement op w =
    (inl (StorageError "statement rejected"),
     mkWorld (db w) rest (clock w) (console w) (journal w)).
Proof. intros H. unfold statement. now rewrite H. Qed.

Lemma statement_runs {A} (op : Db -> Result (A * Db * list Write)) w :
  next_ok w ->
  statement op w =
    match op (db w) with
    | inl e => (inl e, after_statement w)
    | inr (a, d, ws) =>
        (inr a, mkWorld d (tl (faults w)) (clock w) (console w) (journal w ++ ws))
    end.
Proof.
  unfold next_ok, statement, after_statement. intros H.
  destruct (faults w) as [|[|] rest]; simpl in *; try discriminate; reflexivity.
Qed.

Lemma query_runs {A} (q : Db -> A) w :
  next_ok w -> query q w = (inr (q (db w)), after_statement w).
Proof.
  intros H. unfold query. rewrite statement_runs by assumption.
  unfold after_statement. now rewrite app_nil_r.
Qed.

Lemma next_ok_dec w :
  next_ok w \/ exists rest, faults w = true :: rest.
Proof.
  unfold next_ok. destruct (faults w) as [|[|] rest]; simpl; eauto.
Qed.

Lemma query_cases {A} (q : Db -> A) w :
  query q w = (inr (q (db w)), after_statement w) \/
  exists w', query q w = (inl (StorageError "statement rejected"), w') /\
             db w' = db w /\ journal w' = journal w /\ console w' = console w.
Proof.
  destruct (next_ok_dec w) as [H | [rest H]].
  - left. now apply query_runs.
  - right. unfold query. rewrite (statement_rejected _ _ _ H).
    eexists. split; [reflexivity|]. simpl. auto.
Qed.

Lemma includes_In permissions x :
  includes permissions x = true <-> In x (permission_set permissions).
Proof.
  destruct permissions as [ps|]; simpl.
  - rewrite existsb_exists. split.
    + intros [y [Hy E]]. apply String.eqb_eq in E. now subst.
    + intros H. exists x. split; [assumption | apply String.eqb_refl].
  - split; [discriminate | tauto].
Qed.

(** ** The permission gate *)

Lemma requireRole_found requiredRoles req w name permissions :
  gate_finds req w name permissions ->
  fst (requireRole requiredRoles req w) =
    inr (if includes permissions "*"
            || existsb (fun role => String.eqb name role || includes permissions role)
                       requiredRoles
         then Next
         else Respond 403 (message "Insufficient permissions"), req).
Proof.
  intros (req_user & roleId & Hu & Hr & Hok & Hsel).
  unfold requireRole. rewrite Hu. unfold try_catch, bind.
  rewrite query_runs by assumption. rewrite Hr. simpl. rewrite Hsel.
  destruct (includes permissions "*"); simpl; [reflexivity|].
  destruct (existsb _ requiredRoles); reflexivity.
Qed.

(** C2.  Once the role of the attached identity is fetched, [requireRole]
    calls [next()] exactly when the permissions of the role hold the
    wildcard, or some required name is the name of the role or one of its
    permissions; in every other case it answers 403 "Insufficient
    permissions".  For [requireRole(["admin"])]: permissions [["*"]] pass
    under any role name, the role named "admin" passes, the role "viewer"
    with [["read"]] is denied. *)
Theorem requireRole_decides requiredRoles req w name permissions :
  gate_finds req w name permissions ->
  (passes requiredRoles req w <->
     In "*" (permission_set permissions) \/
     exists role, In role requiredRoles /\
                  (name = role \/ In role (permission_set permissions)))
  /\ (passes requiredRoles req w \/ denied requiredRoles req w)
  /\ (permissions = Some ["*"] -> passes ["admin"] req w)
  /\ (name = "admin" -> passes ["admin"] req w)
  /\ (name = "viewer" -> permissions = Some ["read"] -> denied ["admin"] req w).
Proof.
  intros Hfinds. unfold passes, denied.
  repeat split.
  - rewrite (requireRole_found _ _ _ _ _ Hfinds).
    destruct (includes permissions "*") eqn:Hstar; simpl.
    + intros _. left. now apply includes_In.
    + destruct (existsb _ requiredRoles) eqn:Hsome; [|discriminate].
      intros _. right. apply existsb_exists in Hsome as [role [Hin Hrole]].
      exists role. split; [assumption|].
      apply orb_true_iff in Hrole as [E | E].
      * left. now apply String.eqb_eq.
      * right. now apply includes_In.
  - rewrite (requireRole_found _ _ _ _ _ Hfinds).
    intros [Hstar | [role [Hin Hrole]]].
    + apply includes_In in Hstar. now rewrite Hstar.
    + assert (existsb (fun role => String.eqb name role || includes permissions role)
                      requiredRoles = true) as ->.
      { apply existsb_exists. exists role. split; [assumption|].
        apply orb_true_iff. destruct Hrole as [-> | Hp].
        - left. apply String.eqb_refl.
        - right. now apply includes_In. }
      now rewrite orb_true_r.
  - rewrite !(requireRole_found _ _ _ _ _ Hfinds).
    destruct (_ || _); auto.
  - intros ->. now rewrite (requireRole_found _ _ _ _ _ Hfinds).
  - intros ->. rewrite (requireRole_found _ _ _ _ _ Hfinds). simpl.
    now rewrite orb_true_r.
  - intros -> ->. now rewrite (requireRole_found _ _ _ _ _ Hfinds).
Qed.

Lemma bob_is_viewer :
  gate_finds Sample.bob_request (Sample.world []) "viewer" (Some ["read"]).
Proof.
  exists (Sql.columns (Sample.bob, Sample.acme)), 2.
  repeat split.
Qed.

Lemma requireRole_decides_witness :
  gate_finds Sample.bob_request (Sample.world []) "viewer" (Some ["read"]) /\
  denied ["admin"] Sample.bob_request (Sample.world []) /\
  passes ["read"] Sample.bob_request (Sample.world []).
Proof.
  pose proof (requireRole_decides ["admin"] _ _ _ _ bob_is_viewer) as Hadmin.
  pose proof (requireRole_decides ["read"] _ _ _ _ bob_is_viewer) as Hread.
  split; [exact bob_is_viewer|]. split.
  - now apply Hadmin.
  - apply Hread. right. exists "read". simpl. auto.
Defined.

Lemma requireRole_missing requiredRoles req w :
  gate_finds_nothing req w ->
  requireRole requiredRoles req w =
    (inr (Respond 403 (message "No role found"), req), after_statement w).
Proof.
  intros (req_user & Hu & Hok & Hsel).
  unfold requireRole. rewrite Hu. unfold try_catch, bind.
  rewrite query_runs by assumption. now rewrite Hsel.
Qed.

Lemma requireRole_rejected requiredRoles req w :
  gate_lookup_raises req w ->
  fst (requireRole requiredRoles req w) =
    inr (Respond 500 (message "Authorization error"), req).
Proof.
  intros (Hu & rest & Hf).
  unfold requireRole. destruct (user req) as [req_user|]; [|contradiction].
  unfold try_catch, bind, query. now rewrite (statement_rejected _ _ _ Hf).
Qed.

(** The answer of the gate once the lookup is answered. *)
Lemma requireRole_answered requiredRoles req w req_user :
  user req = Some req_user -> next_ok w ->
  fst (requireRole requiredRoles req w) =
    inr (match Sql.select_role_of (Js.get "roleId" req_user) (db w) with
         | Some (name, permissions) =>
             if includes permissions "*"
                || existsb (fun role => String.eqb name role
                                        || includes permissions role)
                           requiredRoles
             then Next
             else Respond 403 (message "Insufficient permissions")
         | None => Respond 403 (message "No role found")
         end, req).
Proof.
  intros Hu Hok. unfold requireRole. rewrite Hu. unfold try_catch, bind.
  rewrite query_runs by assumption.
  destruct (Sql.select_role_of (Js.get "roleId" req_user) (db w))
    as [[name permissions]|]; simpl; [|reflexivity].
  destruct (includes permissions "*"); simpl; [reflexivity|].
  destruct (existsb _ requiredRoles); reflexivity.
Qed.

(** C7, as the code has it.  When the role lookup finds no role,
    [requireRole] answers 403 "No role found": the status of the 4xx class
    that permission-denied has too, told apart from it by the message only,
    and nothing is logged.  The 500 "Authorization error" answer is given
    when the lookup itself is rejected, and an answer of the 5xx class is
    given in that case only. *)
Theorem requireRole_no_role requiredRoles req w :
  (gate_finds_nothing req w ->
     fst (requireRole requiredRoles req w) =
       inr (Respond 403 (message "No role found"), req)
     /\ ~ denied requiredRoles req w
     /\ status_of (fst (requireRole requiredRoles req w)) =
        status_of (inr (Respond 403 (message "Insufficient permissions"), req))
     /\ client_error 403 = true
     /\ console (snd (requireRole requiredRoles req w)) = console w)
  /\ (gate_lookup_raises req w ->
        fst (requireRole requiredRoles req w) =
          inr (Respond 500 (message "Authorization error"), req))
  /\ (answered_as_server_error requiredRoles req w ->
        gate_lookup_raises req w).
Proof.
  split; [|split].
  - intros H. unfold denied. rewrite (requireRole_missing _ _ _ H). simpl.
    repeat split. discriminate.
  - apply requireRole_rejected.
  - intros (s & Hs & Hclass).
    destruct (user req) as [req_user|] eqn:Hu.
    + destruct (next_ok_dec w) as [Hok | [rest Hf]].
      * exfalso. rewrite (requireRole_answered _ _ _ _ Hu Hok) in Hs.
        destruct (Sql.select_role_of (Js.get "roleId" req_user) (db w))
          as [[name permissions]|]; simpl in Hs.
        -- destruct (includes permissions "*" || existsb _ requiredRoles);
             simpl in Hs; [discriminate|].
           injection Hs as <-. discriminate.
        -- injection Hs as <-. discriminate.
      * split; [rewrite Hu; discriminate | eauto].
    + exfalso. unfold requireRole in Hs. rewrite Hu in Hs. simpl in Hs.
      injection Hs as <-. discriminate.
Qed.

Lemma stray_has_no_role :
  gate_finds_nothing Sample.stray_request (Sample.world []).
Proof.
  exists (Sql.columns (Sample.stray, Sample.acme)). repeat split.
Qed.

Lemma requireRole_no_role_witness :
  gate_finds_nothing Sample.stray_request (Sample.world []) /\
  fst (requireRole ["admin"] Sample.stray_request (Sample.world [])) =
    inr (Respond 403 (message "No role found"), Sample.stray_request).
Proof.
  split; [exact stray_has_no_role|].
  apply (requireRole_no_role ["admin"] Sample.stray_request (Sample.world [])).
  exact stray_has_no_role.
Defined.

(** C7, as the claim has it, fails: the identity of this request points at
    role 9, which no row has; the answer is not of the 5xx class. *)
Lemma no_role_is_not_a_server_error :
  gate_finds_nothing Sample.stray_request (Sample.world []) /\
  ~ answered_as_server_error ["admin"] Sample.stray_request (Sample.world []).
Proof.
  split; [exact stray_has_no_role|].
  intros [s [Hs Hclass]].
  rewrite (requireRole_missing _ _ _ stray_has_no_role) in Hs.
  simpl in Hs. injection Hs as <-. discriminate.
Qed.

(** ** The request context loader *)

Lemma hd_error_filter_find {A} (p : A -> bool) l :
  hd_error (filter p l) = find p l.
Proof.
  induction l as [|x l IH]; simpl; [reflexivity|].
  destruct (p x); [reflexivity | exact IH].
Qed.

Lemma in_innerJoin d u o :
  In (u, o) (Sql.innerJoin d) <->
  In u (users d) /\ In o (organizations d) /\
  User.organizationId u = Organization.id o.
Proof.
  unfold Sql.innerJoin. rewrite in_flat_map. split.
  - intros [u' [Hu Hin]]. apply in_map_iff in Hin as [o' [E Ho]].
    injection E as -> ->. apply filter_In in Ho as [Ho Hid].
    apply Z.eqb_eq in Hid. auto.
  - intros (Hu & Ho & Hid). exists u. split; [assumption|].
    apply in_map. apply filter_In. split; [assumption|].
    now apply Z.eqb_eq.
Qed.

Lemma select_by_id_some uid d u o :
  Sql.select_by_id uid d = Some (u, o) ->
  User.id u = uid /\ In u (users d) /\ In o (organizations d) /\
  User.organizationId u = Organization.id o.
Proof.
  unfold Sql.select_by_id, Sql.limit1. rewrite hd_error_filter_find.
  intros H. apply find_some in H as [Hin Hid].
  apply in_innerJoin in Hin. unfold Sql.with_id in Hid. simpl in Hid.
  apply Z.eqb_eq in Hid. tauto.
Qed.

Lemma select_by_id_none uid d u o :
  Sql.select_by_id uid d = None ->
  In u (users d) -> In o (organizations d) ->
  User.organizationId u = Organization.id o ->
  User.id u <> uid.
Proof.
  unfold Sql.select_by_id, Sql.limit1. rewrite hd_error_filter_find.
  intros H Hu Ho Hid E.
  assert (In (u, o) (Sql.innerJoin d)) as Hin by (apply in_innerJoin; auto).
  pose proof (find_none _ _ H (u, o) Hin) as Hn.
  unfold Sql.with_id in Hn. simpl in Hn.
  apply Z.eqb_neq in Hn. contradiction.
Qed.

Lemma session_userId_carries req uid :
  carries req uid -> session_userId req = Some uid.
Proof.
  intros [Hs Hz]. unfold session_userId. rewrite Hs. simpl.
  apply Z.eqb_neq in Hz. now rewrite Hz.
Qed.

Lemma loadUserContext_run req w uid :
  carries req uid ->
  fst (loadUserContext req w) =
    inr (Next,
         match fetch uid w with
         | Some (u, o) =>
             if User.isActive u && Organization.isActive o
             then set_user (Sql.columns (u, o)) req
             else set_session_userId None req
         | None => set_session_userId None req
         end).
Proof.
  intros Hc. unfold loadUserContext.
  rewrite (session_userId_carries _ _ Hc).
  unfold bind at 1. unfold try_catch, bind, fetch.
  destruct (next_ok_dec w) as [Hok | [rest Hf]].
  - rewrite query_runs by assumption.
    assert (match faults w with true :: _ => None | _ => Sql.select_by_id uid (db w) end
            = Sql.select_by_id uid (db w)) as ->.
    { unfold next_ok in Hok. now destruct (faults w) as [|[|] ?]. }
    destruct (Sql.select_by_id uid (db w)) as [[u o]|]; simpl; [|reflexivity].
    destruct (User.isActive u), (Organization.isActive o); reflexivity.
  - unfold query. rewrite (statement_rejected _ _ _ Hf). rewrite Hf. reflexivity.
Qed.

(** C4.  For a request that carries a session-bound identifier, the loader
    fetches the joined row by identifier alone (a deactivated user is still
    fetched), always calls [next()], and: when the fetch gives nothing or the
    user or the organization is inactive, the identifier is removed from the
    session and [req.user] is left as it was; when both are active the row
    is attached and the session kept.  A fresh request therefore ends with an
    identity exactly when the fetched user and organization are active. *)
Theorem loadUserContext_clears_or_attaches req w uid :
  carries req uid ->
  exists req',
    fst (loadUserContext req w) = inr (Next, req') /\
    match fetch uid w with
    | Some (u, o) =>
        (User.id u = uid /\ In u (users (db w)) /\ In o (organizations (db w)) /\
         User.organizationId u = Organization.id o) /\
        if User.isActive u && Organization.isActive o
        then user req' = Some (Sql.columns (u, o)) /\ session req' = session req
        else session req' = Some (mkSession None) /\ user req' = user req
    | None =>
        session req' = Some (mkSession None) /\ user req' = user req /\
        (next_ok w ->
         forall u o, In u (users (db w)) -> In o (organizations (db w)) ->
                     User.organizationId u = Organization.id o -> User.id u <> uid)
    end /\
    (user req = None ->
     (user req' <> None <->
      exists u o, fetch uid w = Some (u, o) /\
                  User.isActive u = true /\ Organization.isActive o = true)).
Proof.
  intros Hc. eexists. split; [apply (loadUserContext_run _ _ _ Hc)|].
  pose proof Hc as [Hs Hz].
  assert (forall row, fetch uid w = Some row -> Sql.select_by_id uid (db w) = Some row)
    as Hfetch.
  { unfold fetch. intros row. now destruct (faults w) as [|[|] ?]. }
  assert (next_ok w -> fetch uid w = Sql.select_by_id uid (db w)) as Hok.
  { unfold fetch, next_ok. now destruct (faults w) as [|[|] ?]. }
  destruct (fetch uid w) as [[u o]|] eqn:Hf.
  - split.
    + split; [now apply (select_by_id_some _ _ _ _ (Hfetch _ eq_refl))|].
      destruct (User.isActive u && Organization.isActive o); simpl.
      * auto.
      * unfold set_session_userId. rewrite Hs. auto.
    + intros Hnone.
      destruct (User.isActive u) eqn:Hu, (Organization.isActive o) eqn:Ho; simpl;
        (split; [intros Hsome | intros (u' & o' & E & Hu' & Ho')]);
        try (injection E as <- <-); try congruence;
        try (exists u, o; auto).
  - split.
    + unfold set_session_userId. rewrite Hs. simpl. repeat split.
      intros Hn u o Hu Ho Hid.
      apply (select_by_id_none uid (db w) u o); auto.
      symmetry. exact (Hok Hn).
    + intros Hnone. simpl. rewrite Hnone. split; [congruence|].
      intros (u & o & E & _). discriminate.
Qed.

Lemma carol_carries : carries Sample.carol_request 4.
Proof. split; [reflexivity | discriminate]. Qed.

Lemma loadUserContext_clears_or_attaches_witness :
  carries Sample.carol_request 4 /\
  exists req',
    fst (loadUserContext Sample.carol_request (Sample.world [])) = inr (Next, req') /\
    session req' = Some (mkSession None) /\ user req' = None.
Proof.
  split; [exact carol_carries|].
  destruct (loadUserContext_clears_or_attaches
              Sample.carol_request (Sample.world []) 4 carol_carries)
    as (req' & Hrun & Hcase & _).
  exists req'. split; [exact Hrun|].
  simpl in Hcase. destruct Hcase as [_ Hcase]. exact Hcase.
Defined.

(** ** The identity resolver: [authenticateUser] *)

Lemma omit_password row :
  Js.omit "password" (Sql.columns_with_password row) = Sql.columns row.
Proof. destruct row as [u o]. reflexivity. Qed.

Lemma columns_has_no_password row :
  Js.get "password" (Sql.columns row) = JUndefined.
Proof. destruct row as [u o]. reflexivity. Qed.

Lemma NoDup_map_injective {A B} (f : A -> B) l x y :
  NoDup (map f l) -> In x l -> In y l -> f x = f y -> x = y.
Proof.
  induction l as [|a l IH]; simpl; [tauto|].
  intros Hnd Hx Hy E. inversion Hnd as [|? ? Hnotin Hnd']; subst.
  destruct Hx as [-> | Hx], Hy as [-> | Hy]; auto.
  - exfalso. apply Hnotin. rewrite E. now apply in_map.
  - exfalso. apply Hnotin. rewrite <- E. now apply in_map.
Qed.

Lemma select_login_row_some email d u o :
  Sql.select_login_row email d = Some (u, o) ->
  In u (users d) /\ In o (organizations d) /\
  User.organizationId u = Organization.id o /\
  User.email u = email /\
  User.isActive u = true /\ Organization.isActive o = true.
Proof.
  unfold Sql.select_login_row, Sql.limit1. rewrite hd_error_filter_find.
  intros H. apply find_some in H as [Hin Hp].
  apply in_innerJoin in Hin as (Hu & Ho & Hid).
  unfold Sql.active_with_email in Hp. simpl in Hp.
  apply andb_true_iff in Hp as [Hp Hoa]. apply andb_true_iff in Hp as [He Hua].
  apply String.eqb_eq in He. apply Bool.eqb_prop in Hua, Hoa. tauto.
Qed.

Lemma select_login_row_unique email d u o :
  keys_unique d ->
  In u (users d) -> In o (organizations d) ->
  User.organizationId u = Organization.id o ->
  User.email u = email ->
  User.isActive u = true -> Organization.isActive o = true ->
  Sql.select_login_row email d = Some (u, o).
Proof.
  intros [Hemails Hids] Hu Ho Hid He Hua Hoa.
  destruct (Sql.select_login_row email d) as [[u' o']|] eqn:Hsel.
  - apply select_login_row_some in Hsel as (Hu' & Ho' & Hid' & He' & _).
    assert (u' = u) as ->.
    { apply (NoDup_map_injective User.email (users d)); congruence. }
    assert (o' = o) as ->.
    { apply (NoDup_map_injective Organization.id (organizations d)); congruence. }
    reflexivity.
  - exfalso. unfold Sql.select_login_row, Sql.limit1 in Hsel.
    rewrite hd_error_filter_find in Hsel.
    assert (In (u, o) (Sql.innerJoin d)) as Hin by (apply in_innerJoin; auto).
    pose proof (find_none _ _ Hsel (u, o) Hin) as Hn.
    unfold Sql.active_with_email in Hn. simpl in Hn.
    rewrite He, Hua, Hoa, String.eqb_refl in Hn. discriminate.
Qed.

Section Authenticate.
Context {bcrypt : Bcrypt}.

(** The run of [authenticateUser] once the lookup is answered. *)
Lemma authenticateUser_run email password w :
  next_ok w ->
  fst (authenticateUser email password w) =
    inr (match Sql.select_login_row email (db w) with
         | Some (u, o) =>
             match bcrypt_compare password (User.password u) with
             | inr true =>
                 if hd false (tl (faults w)) then None
                 else Some (Sql.columns (u, o))
             | _ => None
             end
         | None => None
         end).
Proof.
  intros Hok. unfold authenticateUser, try_catch.
  unfold bind at 1. rewrite query_runs by assumption.
  destruct (Sql.select_login_row email (db w)) as [[u o]|]; simpl; [|reflexivity].
  unfold bind at 1. simpl. unfold bind at 1. unfold comparePassword, lift.
  destruct (bcrypt_compare password (User.password u)) as [e|[|]]; simpl;
    [reflexivity| |reflexivity].
  unfold bind, new_Date, statement. simpl.
  destruct (tl (faults w)) as [|[|] rest]; reflexivity.
Qed.

(** No identity comes out when the lookup itself is rejected. *)
Lemma authenticateUser_lookup_rejected email password w rest :
  faults w = true :: rest ->
  fst (authenticateUser email password w) = inr None.
Proof.
  intros Hf. unfold authenticateUser, try_catch, bind, query.
  now rewrite (statement_rejected _ _ _ Hf).
Qed.

(** Whatever the storage does, an identity that comes out belongs to a user
    that satisfies the four conditions. *)
Lemma authenticateUser_sound email password w ident :
  fst (authenticateUser email password w) = inr (Some ident) ->
  exists u o, valid_login (db w) email password u o /\ ident = Sql.columns (u, o).
Proof.
  destruct (next_ok_dec w) as [Hok | [rest Hf]].
  - rewrite authenticateUser_run by assumption.
    destruct (Sql.select_login_row email (db w)) as [[u o]|] eqn:Hsel;
      [|discriminate].
    destruct (bcrypt_compare password (User.password u)) as [e|[|]] eqn:Hcmp;
      try discriminate.
    destruct (hd false (tl (faults w))); [discriminate|].
    intros E. injection E as <-. exists u, o. split; [|reflexivity].
    apply select_login_row_some in Hsel. unfold valid_login. tauto.
  - rewrite (authenticateUser_lookup_rejected _ _ _ _ Hf). discriminate.
Qed.

(** C1, as the code has it.  With the keys of the data model in force,
    [authenticateUser] returns the identity of a stored user (the joined row
    without [password]) exactly when that user has the given email, is
    active, belongs to an active organization and has a hash that verifies
    against the given password, and the storage rejects neither the lookup
    nor the update of [lastLogin]; when there is no such user, or one of the
    two statements is rejected, it returns [null]. *)
Theorem authenticateUser_identity_iff email password w :
  keys_unique (db w) ->
  (forall u o, valid_login (db w) email password u o ->
               login_statements_run w ->
               fst (authenticateUser email password w) =
                 inr (Some (Sql.columns (u, o))))
  /\ (forall ident,
        fst (authenticateUser email password w) = inr (Some ident) ->
        login_statements_run w /\
        exists u o, valid_login (db w) email password u o /\
                    ident = Sql.columns (u, o) /\
                    Js.get "password" ident = JUndefined)
  /\ ((~ exists u o, valid_login (db w) email password u o)
      \/ ~ login_statements_run w ->
      fst (authenticateUser email password w) = inr None).
Proof.
  intros Hkeys.
  assert (forall ident,
            fst (authenticateUser email password w) = inr (Some ident) ->
            login_statements_run w) as Hran.
  { intros ident Hres.
    destruct (next_ok_dec w) as [Hok | [rest Hf]].
    - split; [assumption|].
      rewrite authenticateUser_run in Hres by assumption.
      unfold next_ok, after_statement. simpl.
      destruct (Sql.select_login_row email (db w)) as [[u o]|]; [|discriminate].
      destruct (bcrypt_compare password (User.password u)) as [e|[|]];
        try discriminate.
      destruct (hd false (tl (faults w))); [discriminate | reflexivity].
    - rewrite (authenticateUser_lookup_rejected _ _ _ _ Hf) in Hres.
      discriminate. }
  assert (forall ident,
            fst (authenticateUser email password w) = inr (Some ident) ->
            exists u o, valid_login (db w) email password u o /\
                        ident = Sql.columns (u, o) /\
                        Js.get "password" ident = JUndefined) as Hsound.
  { intros ident H. apply authenticateUser_sound in H as (u & o & Hv & ->).
    exists u, o. split; [assumption|]. split; [reflexivity|].
    apply columns_has_no_password. }
  split; [|split].
  - intros u o (Hu & Ho & Hid & He & Hua & Hoa & Hcmp) [Hok Hok2].
    unfold next_ok, after_statement in Hok2. simpl in Hok2.
    rewrite authenticateUser_run by assumption.
    rewrite (select_login_row_unique email (db w) u o) by assumption.
    now rewrite Hcmp, Hok2.
  - intros ident H. split; [exact (Hran ident H) | exact (Hsound ident H)].
  - intros Hcause.
    destruct (fst (authenticateUser email password w)) as [e|[ident|]] eqn:Hres.
    + exfalso. destruct (next_ok_dec w) as [Hok | [rest Hf]].
      * rewrite authenticateUser_run in Hres by assumption. discriminate.
      * rewrite (authenticateUser_lookup_rejected _ _ _ _ Hf) in Hres.
        discriminate.
    + exfalso. destruct Hcause as [Hnone | Hrejected].
      * apply Hnone. destruct (Hsound ident eq_refl) as (u & o & Hv & _). eauto.
      * apply Hrejected. exact (Hran ident eq_refl).
    + reflexivity.
Qed.

End Authenticate.

Lemma alice_logs_in :
  valid_login (bcrypt := Sample.bcrypt)
    Sample.tables "a@x.com" "pw123456" Sample.alice Sample.acme.
Proof. unfold valid_login. simpl. repeat split; auto. Qed.

Lemma sample_keys_unique : keys_unique Sample.tables.
Proof.
  split; simpl; repeat constructor; simpl; intuition discriminate.
Qed.

Lemma authenticateUser_identity_iff_witness :
  keys_unique (db (Sample.world [])) /\
  login_statements_run (Sample.world []) /\
  fst (authenticateUser (bcrypt := Sample.bcrypt)
         "a@x.com" "pw123456" (Sample.world [])) =
    inr (Some (Sql.columns (Sample.alice, Sample.acme))).
Proof.
  assert (login_statements_run (Sample.world [])) as Hrun
    by (split; reflexivity).
  split; [exact sample_keys_unique|]. split; [exact Hrun|].
  apply (authenticateUser_identity_iff (bcrypt := Sample.bcrypt)
           "a@x.com" "pw123456" (Sample.world []) sample_keys_unique).
  - exact alice_logs_in.
  - exact Hrun.
Defined.

(** C1, as the claim has it, fails: [alice] is stored, active, in an active
    organization, and her password verifies, but the storage rejects the
    lookup (the first statement) and no identity is returned. *)
Lemma rejected_lookup_hides_valid_user :
  keys_unique Sample.tables /\
  valid_login (bcrypt := Sample.bcrypt)
    Sample.tables "a@x.com" "pw123456" Sample.alice Sample.acme /\
  authenticateUser (bcrypt := Sample.bcrypt)
      "a@x.com" "pw123456" (Sample.world [true]) =
    (inr None,
     mkWorld Sample.tables [] 300
       [("Authentication error:", StorageError "statement rejected")] []).
Proof.
  split; [exact sample_keys_unique|]. split; [exact alice_logs_in|].
  reflexivity.
Qed.

(** C3, as the code has it.  The last-login update is awaited inside the
    [try] block of [authenticateUser]: for a user that the lookup finds and
    whose password verifies, the identity is returned when the update goes
    through (and the update is in the journal); when the update is rejected
    the error is caught and logged, and [authenticateUser] returns [null]. *)
Theorem authenticateUser_last_login {bcrypt : Bcrypt} email password w u o :
  next_ok w ->
  Sql.select_login_row email (db w) = Some (u, o) ->
  bcrypt_compare password (User.password u) = inr true ->
  (next_ok (after_statement w) ->
     fst (authenticateUser email password w) = inr (Some (Sql.columns (u, o))) /\
     journal (snd (authenticateUser email password w)) =
       journal w ++ [UpdLastLogin (User.id u) (clock w)])
  /\ (forall rest, faults (after_statement w) = true :: rest ->
        fst (authenticateUser email password w) = inr None /\
        console (snd (authenticateUser email password w)) =
          console w ++ [("Authentication error:", StorageError "statement rejected")] /\
        db (snd (authenticateUser email password w)) = db w).
Proof.
  intros Hok Hsel Hcmp.
  assert (forall b, hd false (tl (faults w)) = b ->
            authenticateUser email password w =
              if b
              then (inr None,
                    mkWorld (db w) (tl (tl (faults w))) (clock w)
                      (console w ++ [("Authentication error:",
                                      StorageError "statement rejected")])
                      (journal w))
              else (inr (Some (Sql.columns (u, o))),
                    mkWorld (match Sql.update_lastLogin (User.id u) (clock w) (db w) with
                             | inr (_, d, _) => d
                             | inl _ => db w
                             end)
                      (tl (tl (faults w))) (clock w) (console w)
                      (journal w ++ [UpdLastLogin (User.id u) (clock w)]))) as Hrun.
  { intros b Hb. unfold authenticateUser, try_catch.
    unfold bind at 1. rewrite query_runs by assumption. rewrite Hsel. simpl.
    unfold bind at 1. simpl. unfold bind at 1. unfold comparePassword, lift.
    rewrite Hcmp. simpl. unfold bind, new_Date, statement. simpl.
    destruct (tl (faults w)) as [|[|] rest]; simpl in Hb; subst b; reflexivity. }
  split.
  - intros Hok2. unfold next_ok in Hok2. simpl in Hok2.
    rewrite (Hrun false Hok2). auto.
  - intros rest Hf. simpl in Hf.
    assert (hd false (tl (faults w)) = true) as Hb by now rewrite Hf.
    rewrite (Hrun true Hb). auto.
Qed.

Lemma authenticateUser_last_login_witness :
  next_ok (Sample.world [false; true]) /\
  Sql.select_login_row "a@x.com" (db (Sample.world [false; true])) =
    Some (Sample.alice, Sample.acme) /\
  fst (authenticateUser (bcrypt := Sample.bcrypt)
         "a@x.com" "pw123456" (Sample.world [false; true])) = inr None.
Proof.
  split; [reflexivity|]. split; [reflexivity|].
  destruct (authenticateUser_last_login (bcrypt := Sample.bcrypt)
              "a@x.com" "pw123456" (Sample.world [false; true])
              Sample.alice Sample.acme eq_refl eq_refl eq_refl)
    as [_ Hrejected].
  exact (proj1 (Hrejected [] eq_refl)).
Defined.

(** C3, as the claim has it, fails: [alice] is found and her password
    verifies, the update of [lastLogin] (the second statement) is rejected,
    and no identity is returned. *)
Lemma rejected_last_login_fails_login :
  valid_login (bcrypt := Sample.bcrypt)
    Sample.tables "a@x.com" "pw123456" Sample.alice Sample.acme /\
  Sql.select_login_row "a@x.com" Sample.tables = Some (Sample.alice, Sample.acme) /\
  authenticateUser (bcrypt := Sample.bcrypt)
      "a@x.com" "pw123456" (Sample.world [false; true]) =
    (inr None,
     mkWorld Sample.tables [] 300
       [("Authentication error:", StorageError "statement rejected")] []).
Proof.
  split; [exact alice_logs_in|]. split; reflexivity.
Qed.

(** ** The identity resolver: [registerUser] *)

Lemma bind_inv {A B} (m : M A) (k : A -> M B) w b w' :
  bind m k w = (inr b, w') ->
  exists a w1, m w = (inr a, w1) /\ k a w1 = (inr b, w').
Proof.
  unfold bind. destruct (m w) as [[e|a] w1]; [discriminate|]. eauto.
Qed.

Lemma statement_inv {A} (op : Db -> Result (A * Db * list Write)) w a w' :
  statement op w = (inr a, w') ->
  next_ok w /\
  exists d ws, op (db w) = inr (a, d, ws) /\
               w' = mkWorld d (tl (faults w)) (clock w) (console w)
                            (journal w ++ ws).
Proof.
  intros H. destruct (next_ok_dec w) as [Hok | [rest Hf]].
  - rewrite statement_runs in H by assumption. split; [assumption|].
    destruct (op (db w)) as [e|[[a' d] ws]]; [discriminate|].
    injection H as -> <-. eauto.
  - rewrite (statement_rejected _ _ _ Hf) in H. discriminate.
Qed.

Lemma query_inv {A} (q : Db -> A) w a w' :
  query q w = (inr a, w') ->
  next_ok w /\ a = q (db w) /\ w' = after_statement w.
Proof.
  destruct (next_ok_dec w) as [Hok | [rest Hf]].
  - rewrite query_runs by assumption. intros E. injection E as <- <-. auto.
  - unfold query. rewrite (statement_rejected _ _ _ Hf). discriminate.
Qed.

(** A [catch] that logs and returns [null] lets a non-null result through
    from the [try] block only. *)
Lemma try_catch_null_inv {A} (body : M (option A)) label w x w' :
  try_catch body (fun error => console_error label error ;; ret None) w
    = (inr (Some x), w') ->
  body w = (inr (Some x), w').
Proof.
  unfold try_catch. destruct (body w) as [[e|a] w1]; [|auto].
  unfold bind, console_error, ret. discriminate.
Qed.

(** Such a [catch] never lets an exception out. *)
Lemma try_catch_null_total {A} (body : M (option A)) label w :
  exists r, fst (try_catch body
                   (fun error => console_error label error ;; ret None) w) = inr r.
Proof.
  unfold try_catch. destruct (body w) as [[e|a] w1]; simpl; eauto.
Qed.

Lemma nth_fault_tl n (l : list bool) :
  nth (S n) l false = nth n (tl l) false.
Proof. destruct l; [now destruct n | reflexivity]. Qed.

Section Register.
Context {bcrypt : Bcrypt} {defaults : ColumnDefaults}.

Lemma registerUser_success ud w ident w' :
  registerUser ud w = (inr (Some ident), w') ->
  exists o r u rid,
    Js.truthy_str (organizationName ud)
      && Js.truthy_str (organizationSubdomain ud) = true /\
    Sql.select_id_by_email (email ud) (db w) = None /\
    Organization.id o = organizations_seq (db w) /\
    Organization.name o = Js.str (organizationName ud) /\
    Organization.subdomain o = Js.str (organizationSubdomain ud) /\
    r = UserRole.mk (userRoles_seq (db w)) "admin" "Organization Administrator"
                    (Some ["*"]) (Organization.id o) /\
    Sql.limit1 (map UserRole.id
                  (filter (fun r0 => (UserRole.organizationId r0 =? Organization.id o)
                                     && String.eqb (UserRole.name r0) "admin")
                          (userRoles (db w) ++ [r]))) = Some rid /\
    User.email u = email ud /\
    User.organizationId u = Organization.id o /\
    User.roleId u = rid /\
    users (db w') = users (db w) ++ [u] /\
    organizations (db w') = organizations (db w) ++ [o] /\
    userRoles (db w') = userRoles (db w) ++ [r] /\
    journal w' = journal w ++ [InsOrganization o; InsUserRole r; InsUser u] /\
    (exists row, ident = Sql.columns row) /\
    (forall n, (n < 6)%nat -> nth n (faults w) false = false).
Proof.
  intros H. unfold registerUser in H. apply try_catch_null_inv in H.
  apply bind_inv in H as (h & w0 & Hhash & H).
  unfold hashPassword, lift in Hhash. injection Hhash as Hhash <-.
  apply bind_inv in H as (existing & w1 & Hq1 & H).
  apply query_inv in Hq1 as (Hok0 & -> & ->).
  destruct (Sql.select_id_by_email (email ud) (db w)) eqn:Hnew; [discriminate|].
  apply bind_inv in H as (oid & w3 & Horg & H).
  destruct (Js.truthy_str (organizationName ud)
            && Js.truthy_str (organizationSubdomain ud)) eqn:Htruthy;
    [|discriminate].
  apply bind_inv in Horg as (oid' & w2 & Hins & Horg).
  apply statement_inv in Hins as (Hok1 & d1 & ws1 & Hins & ->).
  apply bind_inv in Horg as ([] & w2' & Hrole & Horg).
  apply statement_inv in Hrole as (Hok2 & d2 & ws2 & Hrole & ->).
  unfold ret in Horg. injection Horg as <- <-.
  apply bind_inv in H as (adminRole & w4 & Hq2 & H).
  apply query_inv in Hq2 as (Hok3 & -> & ->).
  unfold after_statement, next_ok in *. simpl in *.
  unfold Sql.insert_organization in Hins.
  destruct (existsb _ (organizations (db w))); [discriminate|].
  injection Hins as <- <- <-.
  unfold Sql.insert_userRole in Hrole. simpl in Hrole.
  injection Hrole as <- <-.
  unfold Sql.select_admin_role in H. simpl in H.
  match type of H with
  | match ?sel with _ => _ end _ = _ => destruct sel as [rid|] eqn:Hsel
  end; [|discriminate].
  apply bind_inv in H as (newUser & w5 & Huser & H).
  apply statement_inv in Huser as (Hok4 & d3 & ws3 & Huser & ->).
  apply bind_inv in H as (userWithOrg & w6 & Hq3 & H).
  apply query_inv in Hq3 as (Hok5 & -> & ->).
  unfold ret in H. injection H as Hident <-.
  unfold after_statement, next_ok in *. simpl in *.
  unfold Sql.insert_user in Huser. simpl in Huser.
  destruct (existsb _ (users (db w))); [discriminate|].
  injection Huser as <- <- <-. simpl in *.
  exists (Organization.mk (organizations_seq (db w))
            (Js.str (organizationName ud)) (Js.str (organizationSubdomain ud))
            default_organization_settings default_organization_isActive
            (db_now (db w)) (db_now (db w))),
         (UserRole.mk (userRoles_seq (db w)) "admin" "Organization Administrator"
            (Some ["*"]) (organizations_seq (db w))),
         (User.mk (users_seq (db w)) (username ud) (email ud) h (fullName ud)
            None None (organizations_seq (db w)) rid default_user_isActive
            None (db_now (db w)) (db_now (db w))),
         rid.
  simpl.
  repeat (split; [reflexivity|]).
  split; [exact Hsel|].
  repeat (split; [reflexivity|]).
  split; [now rewrite <- !app_assoc|].
  split.
  - destruct (Sql.select_by_id _ _) as [row|]; [|discriminate].
    injection Hident as <-. now exists row.
  - intros n Hn.
    assert (forall l, nth 0 l false = hd false l) as Hhd by now intros [|? ?].
    do 6 (destruct n as [|n]; [now rewrite ?nth_fault_tl, Hhd|]).
    lia.
Qed.

Lemma select_id_by_email_some e d u :
  In u (users d) -> User.email u = e ->
  exists i, Sql.select_id_by_email e d = Some i.
Proof.
  intros Hin He. unfold Sql.select_id_by_email, Sql.limit1.
  destruct (filter (fun u0 => String.eqb (User.email u0) e) (users d))
    as [|u0 rest] eqn:Hf; simpl; [|eauto].
  exfalso. assert (In u []) as [].
  rewrite <- Hf. apply filter_In. split; [assumption|].
  subst e. apply String.eqb_refl.
Qed.

Lemma select_id_by_email_none e d u :
  Sql.select_id_by_email e d = None -> In u (users d) -> User.email u <> e.
Proof.
  intros Hsel Hin He.
  destruct (select_id_by_email_some e d u Hin He) as [i Hi]. congruence.
Qed.

(** C5.  When a stored user already has the email, [registerUser] returns
    [null] and writes nothing: the tables and the journal are as before.
    When the password was hashed and the lookup answered, what is caught
    (and logged) is the error "User with this email already exists". *)
Theorem registerUser_duplicate_email ud w u :
  In u (users (db w)) -> User.email u = email ud ->
  fst (registerUser ud w) = inr None /\
  db (snd (registerUser ud w)) = db w /\
  journal (snd (registerUser ud w)) = journal w /\
  (forall h, bcrypt_hash (password ud) 12 = inr h -> next_ok w ->
     console (snd (registerUser ud w)) =
       console w ++ [("Registration error:",
                      JsError "User with this email already exists")]).
Proof.
  intros Hin He.
  destruct (select_id_by_email_some _ _ _ Hin He) as [i Hi].
  assert (exists w1,
            registerUser ud w = (inr None, w1) /\
            db w1 = db w /\ journal w1 = journal w /\
            (forall h, bcrypt_hash (password ud) 12 = inr h -> next_ok w ->
               console w1 =
                 console w ++ [("Registration error:",
                                JsError "User with this email already exists")]))
    as (w1 & -> & Hrest).
  { unfold registerUser, try_catch. unfold bind at 1. unfold hashPassword, lift.
    destruct (bcrypt_hash (password ud) 12) as [e|h]; simpl.
    - eexists. split; [reflexivity|]. repeat split. intros h; discriminate.
    - unfold bind at 1.
      destruct (next_ok_dec w) as [Hok | [rest Hf]].
      + rewrite query_runs by assumption. rewrite Hi. simpl.
        eexists. split; [reflexivity|]. repeat split.
      + unfold query. rewrite (statement_rejected _ _ _ Hf). simpl.
        eexists. split; [reflexivity|]. repeat split.
        intros h' _ Hok. unfold next_ok in Hok.
        rewrite Hf in Hok. discriminate. }
  simpl. split; [reflexivity | exact Hrest].
Qed.
End Register.

Lemma registerUser_duplicate_email_witness :
  In Sample.alice (users (db (Sample.world []))) /\
  User.email Sample.alice = email (register_data Sample.again) /\
  fst (registerUser (bcrypt := Sample.bcrypt) (defaults := Sample.defaults)
         (register_data Sample.again) (Sample.world [])) = inr None /\
  db (snd (registerUser (bcrypt := Sample.bcrypt) (defaults := Sample.defaults)
             (register_data Sample.again) (Sample.world []))) = Sample.tables.
Proof.
  split; [simpl; auto|]. split; [reflexivity|].
  destruct (registerUser_duplicate_email (bcrypt := Sample.bcrypt)
              (defaults := Sample.defaults)
              (register_data Sample.again) (Sample.world []) Sample.alice)
    as (Hres & Hdb & _); [simpl; auto | reflexivity |].
  exact (conj Hres Hdb).
Defined.

Lemma admin_role_is_the_new_one d r :
  roles_reference_issued d ->
  UserRole.organizationId r = organizations_seq d ->
  UserRole.name r = "admin" ->
  Sql.limit1 (map UserRole.id
                (filter (fun r0 => (UserRole.organizationId r0 =? organizations_seq d)
                                   && String.eqb (UserRole.name r0) "admin")
                        (userRoles d ++ [r]))) = Some (UserRole.id r).
Proof.
  unfold roles_reference_issued. intros Hissued Horg Hname.
  rewrite filter_app.
  assert (filter (fun r0 => (UserRole.organizationId r0 =? organizations_seq d)
                            && String.eqb (UserRole.name r0) "admin")
                 (userRoles d) = []) as ->.
  { induction (userRoles d) as [|r0 rs IH]; simpl in *; [reflexivity|].
    apply andb_true_iff in Hissued as [Hlt Hrs].
    apply Z.ltb_lt in Hlt.
    assert ((UserRole.organizationId r0 =? organizations_seq d) = false) as ->
      by (apply Z.eqb_neq; lia).
    simpl. now apply IH. }
  simpl. rewrite Horg, Hname, Z.eqb_refl. reflexivity.
Qed.

(** C8.  A registration that returns an identity has written exactly three
    rows, in this order: the organization, then the role "admin" with
    permissions [["*"]] scoped to that organization, then the user; the user
    points at that organization and at that role.  It had both organization
    fields and an email that no stored user has. *)
Theorem registerUser_creates_in_order {bcrypt : Bcrypt} {defaults : ColumnDefaults}
    ud w ident w' :
  roles_reference_issued (db w) ->
  registerUser ud w = (inr (Some ident), w') ->
  exists o r u,
    journal w' = journal w ++ [InsOrganization o; InsUserRole r; InsUser u] /\
    organizations (db w') = organizations (db w) ++ [o] /\
    userRoles (db w') = userRoles (db w) ++ [r] /\
    users (db w') = users (db w) ++ [u] /\
    Organization.name o = Js.str (organizationName ud) /\
    Organization.subdomain o = Js.str (organizationSubdomain ud) /\
    UserRole.name r = "admin" /\
    UserRole.permissions r = Some ["*"] /\
    UserRole.organizationId r = Organization.id o /\
    User.email u = email ud /\
    User.organizationId u = Organization.id o /\
    User.roleId u = UserRole.id r /\
    Js.truthy_str (organizationName ud) = true /\
    Js.truthy_str (organizationSubdomain ud) = true /\
    (forall u0, In u0 (users (db w)) -> User.email u0 <> email ud).
Proof.
  intros Hissued Hrun.
  apply registerUser_success in Hrun
    as (o & r & u & rid & Htruthy & Hnew & Hoid & Hname & Hsub & Hr & Hsel
        & Hemail & Huorg & Hurole & Husers & Horgs & Hroles & Hjournal & _ & _).
  exists o, r, u.
  apply andb_true_iff in Htruthy as [Ht1 Ht2].
  rewrite Hoid in Hsel, Hr.
  rewrite (admin_role_is_the_new_one (db w) r Hissued) in Hsel
    by (subst r; reflexivity).
  injection Hsel as Hrid.
  repeat split; try assumption; try (subst r; simpl; congruence).
  - congruence.
  - intros u0 Hin. now apply (select_id_by_email_none _ (db w)).
Qed.

Lemma registerUser_creates_in_order_witness :
  roles_reference_issued (db (Sample.world [])) /\
  exists o r u,
    journal (snd (registerUser (bcrypt := Sample.bcrypt) (defaults := Sample.defaults)
                    (register_data Sample.newcomer) (Sample.world []))) =
      [InsOrganization o; InsUserRole r; InsUser u] /\
    UserRole.organizationId r = Organization.id o /\
    User.organizationId u = Organization.id o /\
    User.roleId u = UserRole.id r.
Proof.
  split; [reflexivity|].
  destruct (registerUser_creates_in_order (bcrypt := Sample.bcrypt)
              (defaults := Sample.defaults)
              (register_data Sample.newcomer) (Sample.world [])
              (Sql.columns
                 (User.mk 5 "n" "n@x.com" "$2a$12$pw123456" None None None 2 3
                          true None 200 200,
                  Organization.mk 2 "Newco" "newco" "{}" true 200 200))
              (snd (registerUser (bcrypt := Sample.bcrypt)
                      (defaults := Sample.defaults)
                      (register_data Sample.newcomer) (Sample.world [])))
              eq_refl eq_refl)
    as (o & r & u & Hjournal & _ & _ & _ & _ & _ & _ & _ & Hrole & _ & Huorg & Hurole & _).
  exists o, r, u. auto.
Defined.

Section RegisterFailures.
Context {bcrypt : Bcrypt} {defaults : ColumnDefaults}.

Lemma registerUser_total ud w :
  exists r w1, registerUser ud w = (inr r, w1).
Proof.
  assert (exists r, fst (registerUser ud w) = inr r) as [r Hr]
    by (unfold registerUser; apply try_catch_null_total).
  destruct (registerUser ud w) as [[e|r'] w1]; simpl in Hr; [discriminate|].
  eauto.
Qed.

(** Whatever made the registration fail, the result is [null]. *)
Lemma registerUser_null_unless ud w (cause : Prop) :
  (forall ident w', registerUser ud w = (inr (Some ident), w') -> ~ cause) ->
  cause -> fst (registerUser ud w) = inr None.
Proof.
  intros Hsuccess Hcause.
  destruct (registerUser_total ud w) as ([ident|] & w1 & Hrun); rewrite Hrun.
  - exfalso. exact (Hsuccess _ _ Hrun Hcause).
  - reflexivity.
Qed.

Lemma post_register_after ud_result req w w1 :
  complete_registration (body req) ->
  registerUser (register_data (body req)) w = (inr ud_result, w1) ->
  post_register req w =
    match ud_result with
    | None => (inr (Respond 400 (message "Registration failed"), req), w1)
    | Some user =>
        try_catch (req' <- bind_session user req ;;
                   ret (Respond 200 (user_json user), req'))
                  (fun error =>
                     console_error "Registration error:" error ;;
                     ret (Respond 500 (message "Registration failed"), req)) w1
    end.
Proof.
  intros (He & Hp & Hu & Hn & Hs) Hrun.
  unfold post_register, try_catch. rewrite He, Hp, Hu, Hn, Hs. simpl.
  unfold bind at 1. rewrite Hrun.
  destruct ud_result as [user|]; reflexivity.
Qed.

(** C10.  [registerUser] never throws.  A stored user with the same email, a
    missing organization name or subdomain, and a rejection of any of its six
    statements all end in [null]; the register route answers each [null]
    with 400 "Registration failed", and with a session in place none of its
    answers is of the 5xx class. *)
Theorem registerUser_never_throws ud w :
  (exists r, fst (registerUser ud w) = inr r)
  /\ ((exists u, In u (users (db w)) /\ User.email u = email ud) ->
      fst (registerUser ud w) = inr None)
  /\ (Js.truthy_str (organizationName ud)
        && Js.truthy_str (organizationSubdomain ud) = false ->
      fst (registerUser ud w) = inr None)
  /\ (forall n, (n < 6)%nat -> nth n (faults w) false = true ->
      fst (registerUser ud w) = inr None)
  /\ (forall req,
        complete_registration (body req) ->
        fst (registerUser (register_data (body req)) w) = inr None ->
        fst (post_register req w) =
          inr (Respond 400 (message "Registration failed"), req))
  /\ (forall req,
        session req <> None ->
        exists s json req',
          fst (post_register req w) = inr (Respond s json, req') /\
          server_error s = false).
Proof.
  split; [|split; [|split; [|split; [|split]]]].
  - destruct (registerUser_total ud w) as (r & w1 & ->). now exists r.
  - apply registerUser_null_unless. intros ident w' Hrun (u & Hin & He).
    apply registerUser_success in Hrun
      as (_ & _ & _ & _ & _ & Hnew & _).
    exact (select_id_by_email_none _ _ _ Hnew Hin He).
  - apply registerUser_null_unless. intros ident w' Hrun Hmissing.
    apply registerUser_success in Hrun as (_ & _ & _ & _ & Htruthy & _).
    congruence.
  - intros n Hn. apply registerUser_null_unless. intros ident w' Hrun Hfault.
    apply registerUser_success in Hrun as (o & r & u & rid & Hall).
    do 15 apply proj2 in Hall. rewrite (Hall n Hn) in Hfault. discriminate.
  - intros req Hcomplete Hnull.
    destruct (registerUser_total (register_data (body req)) w) as (r & w1 & Hrun).
    rewrite Hrun in Hnull. simpl in Hnull. injection Hnull as ->.
    now rewrite (post_register_after None req w w1 Hcomplete Hrun).
  - intros req Hsession.
    destruct (Js.truthy_str (body_email (body req))) eqn:He;
      [destruct (Js.truthy_str (body_password (body req))) eqn:Hp;
       [destruct (Js.truthy_str (body_username (body req))) eqn:Hu;
        [destruct (Js.truthy_str (body_organizationName (body req))) eqn:Hn;
         [destruct (Js.truthy_str (body_organizationSubdomain (body req))) eqn:Hs|]|]|]|];
      try (unfold post_register, try_catch;
           rewrite ?He, ?Hp, ?Hu, ?Hn, ?Hs; simpl;
           do 3 eexists; split; reflexivity).
    destruct (registerUser_total (register_data (body req)) w) as (r & w1 & Hrun).
    rewrite (post_register_after r req w w1) by (unfold complete_registration; auto).
    destruct r as [ident|]; [|do 3 eexists; split; reflexivity].
    apply registerUser_success in Hrun as (o & r & u & rid & Hall).
    do 14 apply proj2 in Hall. destruct Hall as [[[u1 o1] ->] _].
    unfold try_catch, bind, bind_session.
    destruct (session req); [|contradiction]. simpl.
    do 3 eexists. split; reflexivity.
Qed.
End RegisterFailures.

Lemma registerUser_never_throws_witness :
  (2 < 6)%nat /\
  nth 2 (faults (Sample.world [false; false; true])) false = true /\
  fst (registerUser (bcrypt := Sample.bcrypt) (defaults := Sample.defaults)
         (register_data Sample.newcomer)
         (Sample.world [false; false; true])) = inr None.
Proof.
  split; [lia|]. split; [reflexivity|].
  destruct (registerUser_never_throws (bcrypt := Sample.bcrypt)
              (defaults := Sample.defaults)
              (register_data Sample.newcomer) (Sample.world [false; false; true]))
    as (_ & _ & _ & Hrejected & _).
  apply (Hrejected 2%nat); [lia | reflexivity].
Defined.

(** ** The password hash stays inside *)

Lemma columns_password_free row : password_free (Sql.columns row).
Proof.
  destruct row as [u o]. unfold password_free, Sql.columns. simpl.
  destruct (User.fullName u), (User.phone u), (User.avatar u),
    (User.lastLogin u); reflexivity.
Qed.

Lemma user_json_password_free row : password_free (user_json (Sql.columns row)).
Proof. destruct row as [u o]. unfold password_free. simpl.
  destruct (User.fullName u); reflexivity.
Qed.

Lemma message_password_free text : password_free (message text).
Proof. reflexivity. Qed.

Section Leaks.
Context {bcrypt : Bcrypt} {defaults : ColumnDefaults}.

Lemma authenticateUser_password_free email password w :
  identity_password_free (authenticateUser email password w).
Proof.
  unfold identity_password_free.
  destruct (fst (authenticateUser email password w)) as [e|[ident|]] eqn:Hres;
    try exact I.
  apply authenticateUser_sound in Hres as (u & o & _ & ->).
  apply columns_password_free.
Qed.

Lemma registerUser_password_free ud w :
  identity_password_free (registerUser ud w).
Proof.
  unfold identity_password_free.
  destruct (registerUser ud w) as [[e|[ident|]] w'] eqn:Hrun; simpl; try exact I.
  apply registerUser_success in Hrun as (o & r & u & rid & Hall).
  do 14 apply proj2 in Hall. destruct Hall as [[row ->] _].
  apply columns_password_free.
Qed.

(** What the loader leaves behind: it calls [next()], and [req.user] is as
    it was or is a joined row of the password-free projection. *)
Lemma loadUserContext_leaves req w :
  exists req' w1,
    loadUserContext req w = (inr (Next, req'), w1) /\
    body req' = body req /\
    (user req' = user req \/ exists row, user req' = Some (Sql.columns row)).
Proof.
  unfold loadUserContext. unfold bind at 1.
  destruct (session_userId req) as [uid|];
    [|do 2 eexists; split; [reflexivity | auto]].
  unfold try_catch. unfold bind at 1.
  destruct (query_cases
              (fun d => option_map Sql.columns (Sql.select_by_id uid d)) w)
    as [-> | (w1 & -> & _)].
  - destruct (Sql.select_by_id uid (db w)) as [row|]; simpl.
    + destruct (Js.truthy _ && Js.truthy _); simpl.
      * do 2 eexists. split; [reflexivity|]. simpl. eauto.
      * do 2 eexists. split; [reflexivity|]. simpl. auto.
    + do 2 eexists. split; [reflexivity|]. simpl. auto.
  - simpl. do 2 eexists. split; [reflexivity|]. simpl. auto.
Qed.

Lemma post_login_password_free req w :
  response_password_free (post_login req w).
Proof.
  unfold response_password_free, post_login, try_catch.
  destruct (negb (Js.truthy_str (body_email (body req)))
            || negb (Js.truthy_str (body_password (body req))));
    [reflexivity|].
  unfold bind at 1.
  pose proof (authenticateUser_sound
                (Js.str (body_email (body req))) (Js.str (body_password (body req))) w)
    as Hsound.
  destruct (authenticateUser (Js.str (body_email (body req)))
              (Js.str (body_password (body req))) w) as [[e|[ident|]] w1];
    simpl in *; try reflexivity.
  destruct (Hsound ident eq_refl) as (u & o & _ & ->).
  unfold bind, bind_session. destruct (session req); simpl; [|reflexivity].
  apply (user_json_password_free (u, o)).
Qed.

Lemma post_register_password_free req w :
  response_password_free (post_register req w).
Proof.
  unfold response_password_free, post_register, try_catch.
  destruct (negb (Js.truthy_str (body_email (body req)))
            || negb (Js.truthy_str (body_password (body req)))
            || negb (Js.truthy_str (body_username (body req))));
    [reflexivity|].
  destruct (negb (Js.truthy_str (body_organizationName (body req)))
            || negb (Js.truthy_str (body_organizationSubdomain (body req))));
    [reflexivity|].
  unfold bind at 1.
  destruct (registerUser (register_data (body req)) w) as [[e|[ident|]] w1] eqn:Hrun;
    simpl; try reflexivity.
  apply registerUser_success in Hrun as (o & r & u & rid & Hall).
  do 14 apply proj2 in Hall. destruct Hall as [[[u1 o1] ->] _].
  unfold bind, bind_session. destruct (session req); simpl; [|reflexivity].
  apply (user_json_password_free (u1, o1)).
Qed.

Lemma post_logout_password_free req w :
  response_password_free (post_logout req w).
Proof.
  unfold response_password_free, post_logout.
  destruct (session req); [|reflexivity].
  unfold try_catch, bind.
  destruct (statement _ w) as [[e|[]] w1]; reflexivity.
Qed.

Lemma get_me_password_free req w :
  user req = None \/ (exists row, user req = Some (Sql.columns row)) ->
  response_password_free (get_me req w).
Proof.
  unfold response_password_free, get_me.
  intros [-> | [row ->]]; simpl; [reflexivity|].
  apply user_json_password_free.
Qed.

Lemma chain_last_password_free (h : Handler) req w :
  response_password_free (h req w) ->
  response_password_free (chain [h] req w).
Proof.
  unfold response_password_free. simpl. unfold bind.
  destruct (h req w) as [[e|[[|s json|] req']] w1]; simpl; auto.
Qed.

Lemma behind_loader_password_free (rest : list Handler) b s w :
  (forall req w1,
     user req = None \/ (exists row, user req = Some (Sql.columns row)) ->
     response_password_free (chain rest req w1)) ->
  response_password_free (chain (loadUserContext :: rest) (incoming b s) w).
Proof.
  intros Hrest.
  destruct (loadUserContext_leaves (incoming b s) w) as (req' & w1 & Hrun & _ & Huser).
  unfold response_password_free. simpl. unfold bind at 1. rewrite Hrun.
  apply Hrest. destruct Huser as [-> | Hrow]; auto.
Qed.

(** C6.  The identity that [authenticateUser] and [registerUser] return and
    the identity that [loadUserContext] attaches to a fresh request have no
    [password] field, and neither has any JSON body that the four
    [/api/auth] routes answer with, at any depth. *)
Theorem password_never_leaves w :
  (forall email password, identity_password_free (authenticateUser email password w))
  /\ (forall ud, identity_password_free (registerUser ud w))
  /\ (forall b s, attached_password_free (loadUserContext (incoming b s) w))
  /\ (forall b s, response_password_free (POST_api_auth_register b s w))
  /\ (forall b s, response_password_free (POST_api_auth_login b s w))
  /\ (forall b s, response_password_free (POST_api_auth_logout b s w))
  /\ (forall b s, response_password_free (GET_api_auth_me b s w)).
Proof.
  split; [|split; [|split; [|split; [|split; [|split]]]]].
  - intros. apply authenticateUser_password_free.
  - intros. apply registerUser_password_free.
  - intros b s. unfold attached_password_free.
    destruct (loadUserContext_leaves (incoming b s) w) as (req' & w1 & -> & _ & Huser).
    simpl. destruct Huser as [-> | [row ->]]; simpl; [exact I|].
    apply columns_password_free.
  - intros b s. apply behind_loader_password_free. intros req w1 _.
    apply chain_last_password_free, post_register_password_free.
  - intros b s. apply behind_loader_password_free. intros req w1 _.
    apply chain_last_password_free, post_login_password_free.
  - intros b s. apply behind_loader_password_free. intros req w1 _.
    apply chain_last_password_free, post_logout_password_free.
  - intros b s. apply behind_loader_password_free. intros req w1 Huser.
    unfold response_password_free. simpl. unfold bind at 1.
    unfold requireAuth. destruct (session_userId req); simpl.
    + apply (chain_last_password_free get_me).
      now apply get_me_password_free.
    + reflexivity.
Qed.
End Leaks.

(** ** The credential store *)

(** [comparePassword] adds nothing to [bcrypt.compare]: it returns what the
    library returns and throws what the library throws, in the same world. *)
Lemma comparePassword_delegates {bcrypt : Bcrypt} password hash w :
  comparePassword password hash w = (bcrypt_compare password hash, w).
Proof. reflexivity. Qed.

(** Inside [authenticateUser] a rejection by the library ends in [null]. *)
Lemma authenticateUser_compare_throws {bcrypt : Bcrypt} email password w u o e :
  next_ok w ->
  Sql.select_login_row email (db w) = Some (u, o) ->
  bcrypt_compare password (User.password u) = inl e ->
  fst (authenticateUser email password w) = inr None.
Proof.
  intros Hok Hsel Hcmp. rewrite authenticateUser_run by assumption.
  now rewrite Hsel, Hcmp.
Qed.

(** ** The scenario of the specification, run on the model *)

(** Registering a new address and then logging in with the same password
    gives the same identity; a wrong password gives [null]; registering the
    address again gives [null] and adds no row. *)
Example register_then_login :
  let registered :=
    registerUser (bcrypt := Sample.bcrypt) (defaults := Sample.defaults)
      (register_data Sample.newcomer) (Sample.world []) in
  let world := snd registered in
  (exists ident,
     fst registered = inr (Some ident) /\
     fst (authenticateUser (bcrypt := Sample.bcrypt) "n@x.com" "pw123456" world)
       = inr (Some ident))
  /\ fst (authenticateUser (bcrypt := Sample.bcrypt) "n@x.com" "wrong" world)
     = inr None
  /\ fst (registerUser (bcrypt := Sample.bcrypt) (defaults := Sample.defaults)
            (register_data Sample.newcomer) world) = inr None
  /\ db (snd (registerUser (bcrypt := Sample.bcrypt) (defaults := Sample.defaults)
                (register_data Sample.newcomer) world)) = db world.
Proof.
  simpl. split; [eexists; split; reflexivity|].
  repeat split.
Qed.

(** * Further properties *)

(** ** Gates behind the loader *)

Lemma session_userId_set_user x req :
  session_userId (set_user x req) = session_userId req.
Proof. reflexivity. Qed.

Lemma session_userId_cleared req :
  session_userId (set_session_userId None req) = None.
Proof.
  unfold session_userId, set_session_userId. simpl.
  now destruct (session req).
Qed.

(** The whole run of the loader: the request it hands on, and a world whose
    tables and journal are those it found. *)
Lemma loadUserContext_pair req w :
  exists w1,
    db w1 = db w /\ journal w1 = journal w /\
    (session_userId req = None -> w1 = w) /\
    loadUserContext req w =
      (inr (Next,
            match session_userId req with
            | None => req
            | Some uid =>
                match fetch uid w with
                | Some (u, o) =>
                    if User.isActive u && Organization.isActive o
                    then set_user (Sql.columns (u, o)) req
                    else set_session_userId None req
                | None => set_session_userId None req
                end
            end), w1).
Proof.
  unfold loadUserContext. unfold bind at 1.
  destruct (session_userId req) as [uid|].
  - unfold try_catch, bind, fetch.
    destruct (next_ok_dec w) as [Hok | [rest Hf]].
    + rewrite query_runs by assumption.
      assert (match faults w with
              | true :: _ => None
              | _ => Sql.select_by_id uid (db w)
              end = Sql.select_by_id uid (db w)) as ->.
      { unfold next_ok in Hok. now destruct (faults w) as [|[|] ?]. }
      exists (after_statement w).
      repeat split; try discriminate.
      destruct (Sql.select_by_id uid (db w)) as [[u o]|]; simpl; [|reflexivity].
      destruct (User.isActive u), (Organization.isActive o); reflexivity.
    + unfold query. rewrite (statement_rejected _ _ _ Hf). rewrite Hf. simpl.
      exists (mkWorld (db w) rest (clock w)
                (console w ++ [("User context loading error:",
                                StorageError "statement rejected")])
                (journal w)).
      repeat split; try discriminate.
  - exists w. repeat split.
Qed.

Section Gates.
Context {bcrypt : Bcrypt} {defaults : ColumnDefaults}.

(** What [requireAuth] lets through behind the loader. *)
Lemma loader_then_requireAuth (h : Handler) b s w :
  (exists uid u o w1,
     session_userId (incoming b s) = Some uid /\
     fetch uid w = Some (u, o) /\
     User.isActive u = true /\ Organization.isActive o = true /\
     db w1 = db w /\ journal w1 = journal w /\
     chain [loadUserContext; requireAuth; h] (incoming b s) w =
       chain [h] (set_user (Sql.columns (u, o)) (incoming b s)) w1)
  \/ ((~ exists uid u o,
         session_userId (incoming b s) = Some uid /\
         fetch uid w = Some (u, o) /\
         User.isActive u = true /\ Organization.isActive o = true) /\
      exists req1 w1,
        user req1 = None /\ session_userId req1 = None /\
        db w1 = db w /\ journal w1 = journal w /\
        chain [loadUserContext; requireAuth; h] (incoming b s) w =
          (inr (Respond 401 (message "Authentication required"), req1), w1)).
Proof.
  destruct (loadUserContext_pair (incoming b s) w) as (w1 & Hdb & Hj & _ & Hrun).
  assert (forall req1,
            loadUserContext (incoming b s) w = (inr (Next, req1), w1) ->
            session_userId req1 = None ->
            chain [loadUserContext; requireAuth; h] (incoming b s) w =
              (inr (Respond 401 (message "Authentication required"), req1), w1))
    as Hrefused.
  { intros req1 Hl Hnone. simpl. unfold bind at 1. rewrite Hl.
    unfold bind at 1. unfold requireAuth. now rewrite Hnone. }
  destruct (session_userId (incoming b s)) as [uid|] eqn:Hs.
  - destruct (fetch uid w) as [[u o]|] eqn:Hfetch.
    + destruct (User.isActive u) eqn:Hu, (Organization.isActive o) eqn:Ho;
        simpl in Hrun.
      * left. exists uid, u, o, w1. repeat split; try assumption.
        simpl. unfold bind at 1. rewrite Hrun.
        unfold bind at 1. unfold requireAuth.
        rewrite session_userId_set_user, Hs. reflexivity.
      * right. split.
        { intros (uid' & u' & o' & E & Hf' & Hu' & Ho').
          injection E as <-. rewrite Hfetch in Hf'. injection Hf' as <- <-.
          congruence. }
        exists (set_session_userId None (incoming b s)), w1.
        repeat split; try assumption.
        -- apply session_userId_cleared.
        -- apply Hrefused; [assumption | apply session_userId_cleared].
      * right. split.
        { intros (uid' & u' & o' & E & Hf' & Hu' & Ho').
          injection E as <-. rewrite Hfetch in Hf'. injection Hf' as <- <-.
          congruence. }
        exists (set_session_userId None (incoming b s)), w1.
        repeat split; try assumption.
        -- apply session_userId_cleared.
        -- apply Hrefused; [assumption | apply session_userId_cleared].
      * right. split.
        { intros (uid' & u' & o' & E & Hf' & Hu' & Ho').
          injection E as <-. rewrite Hfetch in Hf'. injection Hf' as <- <-.
          congruence. }
        exists (set_session_userId None (incoming b s)), w1.
        repeat split; try assumption.
        -- apply session_userId_cleared.
        -- apply Hrefused; [assumption | apply session_userId_cleared].
    + right. split.
      { intros (uid' & u' & o' & E & Hf' & _).
        injection E as <-. rewrite Hfetch in Hf'. discriminate. }
      exists (set_session_userId None (incoming b s)), w1.
      repeat split; try assumption.
      * apply session_userId_cleared.
      * apply Hrefused; [assumption | apply session_userId_cleared].
  - right. split.
    { intros (uid' & u' & o' & E & _). discriminate. }
    exists (incoming b s), w1. repeat split; try assumption.
    now apply Hrefused.
Qed.

(** X1.  Behind [loadUserContext], [requireAuth] lets a fresh request
    through to the next handler only with an identity attached: the joined
    row that the session identifier fetches, with the user and the
    organization active.  Every other request is answered 401
    "Authentication required", with nothing attached and no identifier left
    in the session; the tables and the journal are untouched either way. *)
Theorem requireAuth_admits_only_attached (h : Handler) b s w :
  (exists uid u o w1,
     session_userId (incoming b s) = Some uid /\
     fetch uid w = Some (u, o) /\
     User.isActive u = true /\ Organization.isActive o = true /\
     db w1 = db w /\ journal w1 = journal w /\
     chain [loadUserContext; requireAuth; h] (incoming b s) w =
       chain [h] (set_user (Sql.columns (u, o)) (incoming b s)) w1)
  \/ (exists req1 w1,
        user req1 = None /\ session_userId req1 = None /\
        db w1 = db w /\ journal w1 = journal w /\
        chain [loadUserContext; requireAuth; h] (incoming b s) w =
          (inr (Respond 401 (message "Authentication required"), req1), w1)).
Proof.
  destruct (loader_then_requireAuth h b s w) as [Hin | [_ Hout]]; auto.
Qed.

(** X2.  [GET /api/auth/me] answers 200 with the five fields of the row
    that the session identifier fetches when the user and the organization
    are active, and 401 "Authentication required" in every other case: the
    401 "Not authenticated" of its own handler is never sent. *)
Theorem GET_me_answers b s w :
  (exists uid u o,
     session_userId (incoming b s) = Some uid /\
     fetch uid w = Some (u, o) /\
     User.isActive u = true /\ Organization.isActive o = true /\
     fst (GET_api_auth_me b s w) =
       inr (Respond 200 (user_json (Sql.columns (u, o))),
            set_user (Sql.columns (u, o)) (incoming b s)))
  \/ ((~ exists uid u o,
         session_userId (incoming b s) = Some uid /\
         fetch uid w = Some (u, o) /\
         User.isActive u = true /\ Organization.isActive o = true) /\
      exists req1,
        fst (GET_api_auth_me b s w) =
          inr (Respond 401 (message "Authentication required"), req1)).
Proof.
  unfold GET_api_auth_me.
  destruct (loader_then_requireAuth get_me b s w)
    as [(uid & u & o & w1 & Hs & Hf & Hu & Ho & _ & _ & ->)
       | [Hnot (req1 & w1 & _ & _ & _ & _ & ->)]].
  - left. exists uid, u, o. repeat split; assumption.
  - right. split; [assumption|]. now exists req1.
Qed.
End Gates.

(** ** What the gate and the login leave behind *)

Lemma requireRole_reads_pair requiredRoles req w :
  exists o w1,
    requireRole requiredRoles req w = (inr (o, req), w1) /\
    db w1 = db w /\ journal w1 = journal w /\
    o <> NoResponse /\
    (user req = None ->
     o = Respond 401 (message "Authentication required") /\ w1 = w).
Proof.
  unfold requireRole.
  destruct (user req) as [req_user|].
  - unfold try_catch. unfold bind.
    destruct (query_cases (Sql.select_role_of (Js.get "roleId" req_user)) w)
      as [-> | (w1 & -> & Hdb & Hj & _)].
    + destruct (Sql.select_role_of (Js.get "roleId" req_user) (db w))
        as [[name permissions]|]; simpl.
      * destruct (includes permissions "*"); simpl.
        -- do 2 eexists. repeat split; discriminate.
        -- destruct (existsb _ requiredRoles); simpl;
             do 2 eexists; repeat split; discriminate.
      * do 2 eexists. repeat split; discriminate.
    + simpl. do 2 eexists. repeat split; try assumption; discriminate.
  - exists (Respond 401 (message "Authentication required")), w.
    repeat split. discriminate.
Qed.

(** X3.  [requireRole] only reads: whatever it answers, it neither throws
    nor changes the request, the tables or the journal; without an attached
    identity it answers 401 before any statement is sent. *)
Theorem requireRole_only_reads requiredRoles req w :
  exists o w1,
    requireRole requiredRoles req w = (inr (o, req), w1) /\
    db w1 = db w /\ journal w1 = journal w /\
    o <> NoResponse /\
    (user req = None ->
     o = Respond 401 (message "Authentication required") /\ w1 = w).
Proof. apply requireRole_reads_pair. Qed.

(** The whole run of [authenticateUser], in its two shapes. *)
Lemma authenticateUser_pair {bcrypt : Bcrypt} email password w :
  (exists w1,
     authenticateUser email password w = (inr None, w1) /\
     db w1 = db w /\ journal w1 = journal w)
  \/ (exists u o w1,
        authenticateUser email password w = (inr (Some (Sql.columns (u, o))), w1) /\
        Sql.select_login_row email (db w) = Some (u, o) /\
        bcrypt_compare password (User.password u) = inr true /\
        db w1 = stamped (User.id u) (clock w) (db w) /\
        journal w1 = journal w ++ [UpdLastLogin (User.id u) (clock w)] /\
        faults w1 = tl (tl (faults w)) /\ clock w1 = clock w).
Proof.
  remember (authenticateUser email password w) as run eqn:Hrun.
  unfold authenticateUser, try_catch in Hrun. unfold bind at 1 in Hrun.
  destruct (query_cases
              (fun d => option_map Sql.columns_with_password
                          (Sql.select_login_row email d)) w)
    as [Hq | (w1 & Hq & Hdb & Hj & _)]; rewrite Hq in Hrun.
  - destruct (Sql.select_login_row email (db w)) as [[u o]|] eqn:Hsel;
      simpl in Hrun.
    + unfold bind at 1 in Hrun. simpl in Hrun. unfold bind at 1 in Hrun.
      unfold comparePassword, lift in Hrun.
      destruct (bcrypt_compare password (User.password u)) as [e|[|]] eqn:Hcmp;
        simpl in Hrun.
      * left. subst run. eexists. repeat split.
      * unfold bind, new_Date, statement in Hrun. simpl in Hrun.
        destruct (tl (faults w)) as [|[|] rest] eqn:Hf; simpl in Hrun; subst run.
        -- right. exists u, o. eexists.
           repeat split; try assumption; try (now rewrite Hf).
        -- left. eexists. repeat split.
        -- right. exists u, o. eexists.
           repeat split; try assumption; try (now rewrite Hf).
      * left. subst run. eexists. repeat split.
    + left. subst run. eexists. repeat split.
  - left. simpl in Hrun. subst run. eexists. repeat split; assumption.
Qed.

(** X4.  A login that returns [null] leaves the tables and the journal as
    they were.  A login that returns an identity has done one thing to the
    tables: the rows with the identifier of that user carry the time of the
    login in [lastLogin]; the journal has this one update more. *)
Theorem authenticateUser_stamps_only {bcrypt : Bcrypt} email password w :
  match fst (authenticateUser email password w) with
  | inr (Some ident) =>
      exists u o,
        ident = Sql.columns (u, o) /\ In u (users (db w)) /\
        db (snd (authenticateUser email password w)) =
          stamped (User.id u) (clock w) (db w) /\
        journal (snd (authenticateUser email password w)) =
          journal w ++ [UpdLastLogin (User.id u) (clock w)]
  | _ =>
      db (snd (authenticateUser email password w)) = db w /\
      journal (snd (authenticateUser email password w)) = journal w
  end.
Proof.
  destruct (authenticateUser_pair email password w)
    as [(w1 & -> & Hdb & Hj) | (u & o & w1 & -> & Hsel & _ & Hdb & Hj & _)];
    simpl.
  - auto.
  - exists u, o. repeat split; try assumption.
    now apply select_login_row_some in Hsel.
Qed.

(** ** Rest destructuring *)

Lemma assoc_filter_other k k' fields :
  k <> k' ->
  Js.assoc k' (filter (fun kv => negb (String.eqb k (fst kv))) fields) =
  Js.assoc k' fields.
Proof.
  intros Hne. induction fields as [|[k0 v0] rest IH]; simpl; [reflexivity|].
  destruct (String.eqb k k0) eqn:Ek; simpl.
  - apply String.eqb_eq in Ek. subst k0.
    assert (String.eqb k' k = false) as ->
      by (apply String.eqb_neq; congruence).
    exact IH.
  - now rewrite IH.
Qed.

Lemma assoc_filter_same k fields :
  Js.assoc k (filter (fun kv => negb (String.eqb k (fst kv))) fields) = JUndefined.
Proof.
  induction fields as [|[k0 v0] rest IH]; simpl; [reflexivity|].
  destruct (String.eqb k k0) eqn:Ek; simpl; [exact IH|].
  now rewrite Ek.
Qed.

(** X5.  The identity that [authenticateUser] returns is the row it
    selected with one property less: [password] reads undefined in it, and
    every other property reads as in the selected row of the user that
    logged in. *)
Theorem authenticateUser_strips_password_only {bcrypt : Bcrypt}
    email password w ident :
  fst (authenticateUser email password w) = inr (Some ident) ->
  exists u o,
    Sql.select_login_row email (db w) = Some (u, o) /\
    Js.get "password" (Sql.columns_with_password (u, o))
      = JStr (User.password u) /\
    Js.get "password" ident = JUndefined /\
    forall k, k <> "password" ->
              Js.get k ident = Js.get k (Sql.columns_with_password (u, o)).
Proof.
  intros Hlogin.
  destruct (authenticateUser_pair email password w)
    as [(w1 & Hrun & _) | (u & o & w1 & Hrun & Hsel & _)];
    rewrite Hrun in Hlogin; cbn [fst] in Hlogin; [discriminate|].
  assert (ident = Sql.columns (u, o)) as -> by congruence.
  exists u, o. split; [assumption|]. split; [reflexivity|].
  rewrite <- (omit_password (u, o)).
  split.
  - apply assoc_filter_same.
  - intros k Hk. apply assoc_filter_other. congruence.
Qed.

Lemma authenticateUser_strips_password_only_witness :
  fst (authenticateUser (bcrypt := Sample.bcrypt)
         "a@x.com" "pw123456" (Sample.world [])) =
    inr (Some (Sql.columns (Sample.alice, Sample.acme))) /\
  Js.get "password" (Sql.columns (Sample.alice, Sample.acme)) = JUndefined /\
  Js.get "email" (Sql.columns (Sample.alice, Sample.acme)) = JStr "a@x.com".
Proof.
  split; [reflexivity|].
  destruct (authenticateUser_strips_password_only (bcrypt := Sample.bcrypt)
              "a@x.com" "pw123456" (Sample.world [])
              (Sql.columns (Sample.alice, Sample.acme)) eq_refl)
    as (u & o & Hsel & _ & Hnone & Hrest).
  split; [exact Hnone|].
  injection Hsel as <- <-.
  rewrite (Hrest "email"); [reflexivity | discriminate].
Defined.

(** ** Integrity of the tables under the inserts *)

Lemma existsb_eqb_false_not_in {A} (f : A -> string) s l :
  existsb (fun x => String.eqb (f x) s) l = false -> ~ In s (map f l).
Proof.
  intros Hnone Hin. apply in_map_iff in Hin as [x [E Hx]].
  assert (existsb (fun x => String.eqb (f x) s) l = true) as Hsome.
  { apply existsb_exists. exists x. split; [assumption|].
    subst s. apply String.eqb_refl. }
  congruence.
Qed.

Lemma NoDup_snoc {A} (l : list A) x :
  NoDup l -> ~ In x l -> NoDup (l ++ [x]).
Proof.
  intros Hl Hx. apply NoDup_app; [assumption | repeat constructor; auto |].
  intros a Ha [<- | []]. contradiction.
Qed.

Lemma fresh_key_not_in {A} (key : A -> Z) (l : list A) (next : Z) :
  (forall x, In x l -> key x < next) -> ~ In next (map key l).
Proof.
  intros Hbelow Hin. apply in_map_iff in Hin as [x [E Hx]].
  specialize (Hbelow x Hx). lia.
Qed.

Lemma below_snoc {A} (key : A -> Z) (l : list A) (x : A) (next : Z) :
  (forall y, In y l -> key y < next) -> key x = next ->
  forall y, In y (l ++ [x]) -> key y < next + 1.
Proof.
  intros Hbelow Hx y Hy. apply in_app_iff in Hy as [Hy | [<- | []]].
  - specialize (Hbelow y Hy). lia.
  - lia.
Qed.

Section InsertIntegrity.
Context {defaults : ColumnDefaults}.

Lemma insert_organization_wf name subdomain d oid d1 ws :
  db_wf d ->
  Sql.insert_organization name subdomain d = inr (oid, d1, ws) ->
  db_wf d1 /\
  oid = organizations_seq d /\
  In oid (map Organization.id (organizations d1)) /\
  users d1 = users d /\ userRoles d1 = userRoles d /\
  exists o, ws = [InsOrganization o] /\
            organizations d1 = organizations d ++ [o] /\
            Organization.id o = oid /\
            Organization.name o = name /\ Organization.subdomain o = subdomain.
Proof.
  intros ((Hsu & Hso & Hsr) & (Hpu & Hpo & Hpr) & (Hue & Hus)
          & (Hfu & Hfr) & Htenant) Hins.
  unfold Sql.insert_organization in Hins.
  destruct (existsb _ (organizations d)) eqn:Hsub; [discriminate|].
  injection Hins as <- <- <-. simpl.
  split; [|split; [reflexivity|split; [|split; [reflexivity|split; [reflexivity|]]]]].
  - split; [|split; [|split; [|split]]].
    + split; [exact Hsu | split; [|exact Hsr]]. simpl.
      now apply (below_snoc Organization.id).
    + split; [exact Hpu | split; [|exact Hpr]]. simpl.
      rewrite map_app. apply NoDup_snoc; [assumption|].
      now apply fresh_key_not_in.
    + split; [exact Hue|]. simpl.
      rewrite map_app. apply NoDup_snoc; [assumption|].
      now apply existsb_eqb_false_not_in.
    + split; simpl.
      * intros u Hu. destruct (Hfu u Hu) as [Ho Hr]. split; [|exact Hr].
        rewrite map_app. apply in_or_app. now left.
      * intros r Hr. rewrite map_app. apply in_or_app. left. now apply Hfr.
    + exact Htenant.
  - rewrite map_app. apply in_or_app. right. simpl. auto.
  - eexists. repeat split.
Qed.

Lemma insert_userRole_wf name description permissions oid d d2 ws :
  db_wf d ->
  In oid (map Organization.id (organizations d)) ->
  Sql.insert_userRole name description permissions oid d = inr (tt, d2, ws) ->
  db_wf d2 /\
  users d2 = users d /\ organizations d2 = organizations d /\
  exists r, ws = [InsUserRole r] /\
            userRoles d2 = userRoles d ++ [r] /\
            UserRole.name r = name /\
            UserRole.permissions r = Some permissions /\
            UserRole.organizationId r = oid.
Proof.
  intros ((Hsu & Hso & Hsr) & (Hpu & Hpo & Hpr) & (Hue & Hus)
          & (Hfu & Hfr) & Htenant) Hoid Hins.
  unfold Sql.insert_userRole in Hins. injection Hins as <- <-. simpl.
  split; [|split; [reflexivity|split; [reflexivity|]]].
  - split; [|split; [|split; [|split]]].
    + split; [exact Hsu | split; [exact Hso|]]. simpl.
      now apply (below_snoc UserRole.id).
    + split; [exact Hpu | split; [exact Hpo|]]. simpl.
      rewrite map_app. apply NoDup_snoc; [assumption|].
      now apply fresh_key_not_in.
    + split; assumption.
    + split; simpl.
      * intros u Hu. destruct (Hfu u Hu) as [Ho Hr]. split; [exact Ho|].
        rewrite map_app. apply in_or_app. now left.
      * intros r Hr. apply in_app_iff in Hr as [Hr | [<- | []]]; simpl.
        -- now apply Hfr.
        -- assumption.
    + intros u r Hu Hr Hid. simpl in Hu, Hr.
      apply in_app_iff in Hr as [Hr | [<- | []]].
      * now apply Htenant.
      * exfalso. simpl in Hid.
        apply (fresh_key_not_in UserRole.id (userRoles d) (userRoles_seq d) Hsr).
        rewrite Hid. now apply Hfu.
  - eexists. repeat split.
Qed.

Lemma insert_user_wf email password username fullName oid rid d u d3 ws :
  db_wf d ->
  In oid (map Organization.id (organizations d)) ->
  (exists r, In r (userRoles d) /\ UserRole.id r = rid /\
             UserRole.organizationId r = oid) ->
  Sql.insert_user email password username fullName oid rid d = inr (u, d3, ws) ->
  db_wf d3 /\
  ws = [InsUser u] /\
  users d3 = users d ++ [u] /\
  organizations d3 = organizations d /\ userRoles d3 = userRoles d /\
  User.id u = users_seq d /\ User.email u = email /\ User.password u = password /\
  User.organizationId u = oid /\ User.roleId u = rid /\
  User.isActive u = default_user_isActive.
Proof.
  intros ((Hsu & Hso & Hsr) & (Hpu & Hpo & Hpr) & (Hue & Hus)
          & (Hfu & Hfr) & Htenant) Hoid (r0 & Hr0 & Hrid & Hrorg) Hins.
  unfold Sql.insert_user in Hins.
  destruct (existsb _ (users d)) eqn:Hemail; [discriminate|].
  injection Hins as <- <- <-. simpl.
  split; [|repeat split].
  split; [|split; [|split; [|split]]].
  - split; [|split; [exact Hso | exact Hsr]]. simpl.
    now apply (below_snoc User.id).
  - split; [|split; [exact Hpo | exact Hpr]]. simpl.
    rewrite map_app. apply NoDup_snoc; [assumption|].
    now apply fresh_key_not_in.
  - split; [|exact Hus]. simpl.
    rewrite map_app. apply NoDup_snoc; [assumption|].
    now apply existsb_eqb_false_not_in.
  - split; simpl; [|exact Hfr].
    intros u Hu. apply in_app_iff in Hu as [Hu | [<- | []]]; simpl.
    + now apply Hfu.
    + split; [assumption|]. rewrite <- Hrid. now apply in_map.
  - intros u r Hu Hr Hid. simpl in Hu, Hr.
    apply in_app_iff in Hu as [Hu | [<- | []]].
    + now apply Htenant.
    + simpl in *.
      assert (r = r0) as ->
        by (apply (NoDup_map_injective UserRole.id (userRoles d)); congruence).
      assumption.
Qed.
End InsertIntegrity.

Lemma stamped_wf uid t d : db_wf d -> db_wf (stamped uid t d).
Proof.
  intros ((Hsu & Hso & Hsr) & (Hpu & Hpo & Hpr) & (Hue & Hus)
          & (Hfu & Hfr) & Htenant).
  assert (forall {B} (f : User.t -> B),
            (forall u, f (logged_in_at t u) = f u) ->
            map f (users (stamped uid t d)) = map f (users d)) as Hmap.
  { intros B f Hf. unfold stamped. simpl. rewrite map_map.
    apply map_ext. intros u. destruct (User.id u =? uid); [apply Hf | reflexivity]. }
  assert (forall u', In u' (users (stamped uid t d)) ->
                     exists u, In u (users d) /\
                               User.id u' = User.id u /\
                               User.organizationId u' = User.organizationId u /\
                               User.roleId u' = User.roleId u) as Hback.
  { unfold stamped. simpl. intros u' Hin.
    apply in_map_iff in Hin as [u [E Hu]]. exists u. split; [assumption|].
    destruct (User.id u =? uid); subst u'; auto. }
  split; [|split; [|split; [|split]]].
  - split; [|split; [exact Hso | exact Hsr]].
    intros u' Hu'. destruct (Hback u' Hu') as (u & Hu & -> & _).
    now apply Hsu.
  - split; [|split; [exact Hpo | exact Hpr]].
    rewrite Hmap; [assumption | reflexivity].
  - split; [|exact Hus].
    rewrite Hmap; [assumption | reflexivity].
  - split; [|exact Hfr].
    intros u' Hu'. destruct (Hback u' Hu') as (u & Hu & _ & -> & ->).
    now apply Hfu.
  - intros u' r Hu' Hr Hid.
    destruct (Hback u' Hu') as (u & Hu & _ & -> & Hrole).
    apply Htenant; [assumption | exact Hr | congruence].
Qed.

(** ** Every exit of [registerUser] *)

Lemma statement_cases {A} (op : Db -> Result (A * Db * list Write)) w :
  (exists e w1, statement op w = (inl e, w1) /\
                db w1 = db w /\ journal w1 = journal w)
  \/ (exists a d ws,
        op (db w) = inr (a, d, ws) /\ next_ok w /\
        statement op w =
          (inr a, mkWorld d (tl (faults w)) (clock w) (console w)
                          (journal w ++ ws))).
Proof.
  destruct (next_ok_dec w) as [Hok | [rest Hf]].
  - rewrite statement_runs by assumption.
    destruct (op (db w)) as [e|[[a d] ws]].
    + left. do 2 eexists. split; [reflexivity|]. simpl. auto.
    + right. exists a, d, ws. auto.
  - left. rewrite (statement_rejected _ _ _ Hf).
    do 2 eexists. split; [reflexivity|]. simpl. auto.
Qed.

Ltac step_statement H :=
  match type of H with
  | context [statement ?op ?wx] =>
      let e := fresh "e" in
      let w1 := fresh "w" in
      let Hs := fresh "Hstmt" in
      let Hdb := fresh "Hdb" in
      let Hj := fresh "Hj" in
      let a := fresh "a" in
      let d := fresh "d" in
      let ws := fresh "ws" in
      let Hop := fresh "Hop" in
      let Hok := fresh "Hok" in
      destruct (statement_cases op wx)
        as [(e & w1 & Hs & Hdb & Hj) | (a & d & ws & Hop & Hok & Hs)];
      [ rewrite Hs in H; simpl in H, Hdb, Hj
      | rewrite Hs in H; simpl in H, Hop ]
  end.

Section RegisterPaths.
Context {bcrypt : Bcrypt} {defaults : ColumnDefaults}.

Lemma registerUser_paths ud w :
  exists r w',
    registerUser ud w = (inr r, w') /\
    ((r = None /\ db w' = db w /\ journal w' = journal w)
     \/ exists oid d1 ws1,
          Sql.select_id_by_email (email ud) (db w) = None /\
          Sql.insert_organization (Js.str (organizationName ud))
            (Js.str (organizationSubdomain ud)) (db w) = inr (oid, d1, ws1) /\
          ((r = None /\ db w' = d1 /\ journal w' = journal w ++ ws1)
           \/ exists d2 ws2,
                Sql.insert_userRole "admin" "Organization Administrator"
                  ["*"] oid d1 = inr (tt, d2, ws2) /\
                ((r = None /\ db w' = d2 /\
                  journal w' = journal w ++ ws1 ++ ws2)
                 \/ exists h rid u d3 ws3,
                      bcrypt_hash (password ud) 12 = inr h /\
                      Sql.select_admin_role oid d2 = Some rid /\
                      Sql.insert_user (email ud) h (username ud) (fullName ud)
                        oid rid d2 = inr (u, d3, ws3) /\
                      db w' = d3 /\
                      journal w' = journal w ++ ws1 ++ ws2 ++ ws3 /\
                      (r = None \/
                       exists row, Sql.select_by_id (User.id u) d3 = Some row /\
                                   r = Some (Sql.columns row))))).
Proof.
  remember (registerUser ud w) as run eqn:Hrun.
  unfold registerUser, try_catch, hashPassword, lift, query in Hrun.
  unfold bind in Hrun.
  destruct (bcrypt_hash (password ud) 12) as [e|h] eqn:Hhash; simpl in Hrun.
  { subst run. do 2 eexists. split; [reflexivity|]. left. auto. }
  step_statement Hrun.
  { subst run. do 2 eexists. split; [reflexivity|]. left. simpl. auto. }
  injection Hop as <- <- <-.
  destruct (Sql.select_id_by_email (email ud) (db w)) eqn:Hnew; simpl in Hrun.
  { subst run. do 2 eexists. split; [reflexivity|]. left. simpl.
    rewrite app_nil_r. auto. }
  destruct (Js.truthy_str (organizationName ud)
            && Js.truthy_str (organizationSubdomain ud)); simpl in Hrun.
  2:{ subst run. do 2 eexists. split; [reflexivity|]. left. simpl.
      rewrite app_nil_r. auto. }
  rewrite app_nil_r in Hrun.
  step_statement Hrun.
  { subst run. do 2 eexists. split; [reflexivity|]. left. simpl.
    split; [reflexivity|]. split; congruence. }
  rename a into oid, d into d1, ws into ws1, Hop into Hins1.
  step_statement Hrun.
  { subst run. do 2 eexists. split; [reflexivity|]. right.
    exists oid, d1, ws1. split; [reflexivity|]. split; [exact Hins1|].
    left. simpl. split; [reflexivity|]. split; congruence. }
  destruct a. rename d into d2, ws into ws2, Hop into Hins2.
  unfold ret at 1 in Hrun.
  step_statement Hrun.
  { subst run. do 2 eexists. split; [reflexivity|]. right.
    exists oid, d1, ws1. split; [reflexivity|]. split; [exact Hins1|].
    right. exists d2, ws2. split; [exact Hins2|].
    left. simpl. rewrite <- app_assoc in Hj. split; [reflexivity|].
    split; congruence. }
  injection Hop as <- <- <-. rewrite app_nil_r in Hrun.
  destruct (Sql.select_admin_role oid d2) as [rid|] eqn:Hrole; simpl in Hrun.
  2:{ subst run. do 2 eexists. split; [reflexivity|]. right.
      exists oid, d1, ws1. split; [reflexivity|]. split; [exact Hins1|].
      right. exists d2, ws2. split; [exact Hins2|].
      left. simpl. rewrite <- app_assoc. auto. }
  step_statement Hrun.
  { subst run. do 2 eexists. split; [reflexivity|]. right.
    exists oid, d1, ws1. split; [reflexivity|]. split; [exact Hins1|].
    right. exists d2, ws2. split; [exact Hins2|].
    left. simpl. rewrite <- app_assoc in Hj. split; [reflexivity|].
    split; congruence. }
  rename a into u, d into d3, ws into ws3, Hop into Hins3.
  step_statement Hrun.
  { subst run. do 2 eexists. split; [reflexivity|]. right.
    exists oid, d1, ws1. split; [reflexivity|]. split; [exact Hins1|].
    right. exists d2, ws2. split; [exact Hins2|].
    right. exists h, rid, u, d3, ws3. simpl.
    rewrite <- !app_assoc in Hj.
    repeat (split; [first [reflexivity | assumption | congruence]|]).
    now left. }
  injection Hop as <- <- <-. rewrite app_nil_r in Hrun.
  unfold ret in Hrun. subst run.
  do 2 eexists. split; [reflexivity|]. right.
  exists oid, d1, ws1. split; [reflexivity|]. split; [exact Hins1|].
  right. exists d2, ws2. split; [exact Hins2|].
  right. exists h, rid, u, d3, ws3. simpl. rewrite <- !app_assoc.
  repeat (split; [first [reflexivity | assumption]|]).
  destruct (Sql.select_by_id (User.id u) d3) as [row|]; simpl; eauto.
Qed.
End RegisterPaths.

Lemma select_admin_role_some oid d rid :
  Sql.select_admin_role oid d = Some rid ->
  exists r, In r (userRoles d) /\ UserRole.id r = rid /\
            UserRole.organizationId r = oid /\ UserRole.name r = "admin".
Proof.
  unfold Sql.select_admin_role, Sql.limit1.
  destruct (filter _ (userRoles d)) as [|r rest] eqn:Hf; simpl; [discriminate|].
  intros E. injection E as <-.
  assert (In r (r :: rest)) as Hin by (simpl; auto).
  rewrite <- Hf in Hin. apply filter_In in Hin as [Hin Hp].
  apply andb_true_iff in Hp as [Ho Hn].
  apply Z.eqb_eq in Ho. apply String.eqb_eq in Hn. eauto.
Qed.

Section RegisterIntegrity.
Context {bcrypt : Bcrypt} {defaults : ColumnDefaults}.

Lemma registerUser_wf ud w :
  db_wf (db w) -> db_wf (db (snd (registerUser ud w))).
Proof.
  intros Hwf.
  destruct (registerUser_paths ud w) as (r & w' & -> & Hpaths). simpl.
  destruct Hpaths
    as [(_ & -> & _)
       | (oid & d1 & ws1 & _ & Hins1
          & [(_ & -> & _)
            | (d2 & ws2 & Hins2
               & [(_ & -> & _)
                 | (h & rid & u & d3 & ws3 & _ & Hrole & Hins3 & -> & _)])])];
    try assumption.
  - now apply (insert_organization_wf _ _ _ _ _ _ Hwf Hins1).
  - destruct (insert_organization_wf _ _ _ _ _ _ Hwf Hins1) as (Hwf1 & _ & Hoid & _).
    now apply (insert_userRole_wf _ _ _ _ _ _ _ Hwf1 Hoid Hins2).
  - destruct (insert_organization_wf _ _ _ _ _ _ Hwf Hins1) as (Hwf1 & _ & Hoid & _).
    destruct (insert_userRole_wf _ _ _ _ _ _ _ Hwf1 Hoid Hins2)
      as (Hwf2 & _ & Horgs & _).
    apply select_admin_role_some in Hrole as (r0 & Hr0 & Hid & Horg & _).
    apply (insert_user_wf _ _ _ _ _ _ _ _ _ _ Hwf2) in Hins3; [tauto | | eauto].
    now rewrite Horgs.
Qed.

(** X6.  Integrity is kept at every exit.  When the tables have serial and
    unique keys, valid references, and every user's role in the user's own
    organization, they still have after [registerUser] (also when it stops
    half-way and returns [null]), after [authenticateUser], after
    [loadUserContext] and after [requireRole]. *)
Theorem AuthService_keeps_integrity ud email password requiredRoles req w :
  db_wf (db w) ->
  db_wf (db (snd (registerUser ud w))) /\
  db_wf (db (snd (authenticateUser email password w))) /\
  db_wf (db (snd (loadUserContext req w))) /\
  db_wf (db (snd (requireRole requiredRoles req w))).
Proof.
  intros Hwf. split; [now apply registerUser_wf|]. split; [|split].
  - destruct (authenticateUser_pair email password w)
      as [(w1 & -> & Hdb & _) | (u & o & w1 & -> & _ & _ & Hdb & _)];
      simpl; rewrite Hdb.
    + assumption.
    + now apply stamped_wf.
  - destruct (loadUserContext_pair req w) as (w1 & Hdb & _ & _ & ->).
    simpl. now rewrite Hdb.
  - destruct (requireRole_reads_pair requiredRoles req w)
      as (o & w1 & -> & Hdb & _).
    simpl. now rewrite Hdb.
Qed.
End RegisterIntegrity.

Lemma sample_tables_wf : db_wf Sample.tables.
Proof.
  split; [|split; [|split; [|split]]].
  - repeat split; intros x Hx; simpl in Hx;
      repeat (destruct Hx as [<- | Hx]; [simpl; lia|]); destruct Hx.
  - repeat split; simpl; repeat constructor; simpl; intuition discriminate.
  - repeat split; simpl; repeat constructor; simpl; intuition discriminate.
  - split; intros x Hx; simpl in Hx;
      repeat (destruct Hx as [<- | Hx]; [simpl; auto|]); destruct Hx.
  - intros u r Hu Hr Hid. simpl in Hu, Hr.
    repeat (destruct Hu as [<- | Hu]; [|]);
      try (destruct Hu);
      repeat (destruct Hr as [<- | Hr]; [|]);
      try (destruct Hr); simpl in *; try reflexivity; try discriminate.
Qed.

Lemma AuthService_keeps_integrity_witness :
  db_wf (db (Sample.world [false; false; true])) /\
  db_wf (db (snd (registerUser (bcrypt := Sample.bcrypt)
                    (defaults := Sample.defaults)
                    (register_data Sample.newcomer)
                    (Sample.world [false; false; true])))).
Proof.
  split; [exact sample_tables_wf|].
  apply (AuthService_keeps_integrity (bcrypt := Sample.bcrypt)
           (defaults := Sample.defaults)
           (register_data Sample.newcomer) "a@x.com" "pw123456" ["admin"]
           Sample.bob_request (Sample.world [false; false; true])
           sample_tables_wf).
Defined.

(** ** The order of the writes of [registerUser] *)

Section RegisterOrder.
Context {bcrypt : Bcrypt} {defaults : ColumnDefaults}.

Lemma insert_organization_inv name subdomain d oid d1 ws :
  Sql.insert_organization name subdomain d = inr (oid, d1, ws) ->
  exists o,
    ws = [InsOrganization o] /\ oid = organizations_seq d /\
    Organization.id o = oid /\
    Organization.name o = name /\ Organization.subdomain o = subdomain /\
    Organization.isActive o = default_organization_isActive /\
    organizations d1 = organizations d ++ [o] /\
    users d1 = users d /\ userRoles d1 = userRoles d /\
    ~ In subdomain (map Organization.subdomain (organizations d)).
Proof.
  unfold Sql.insert_organization.
  destruct (existsb _ (organizations d)) eqn:Hsub; [discriminate|].
  intros E. injection E as <- <- <-. eexists. repeat split.
  now apply existsb_eqb_false_not_in.
Qed.

Lemma insert_userRole_inv name description permissions oid d d2 ws :
  Sql.insert_userRole name description permissions oid d = inr (tt, d2, ws) ->
  exists r,
    ws = [InsUserRole r] /\
    UserRole.id r = userRoles_seq d /\
    UserRole.name r = name /\ UserRole.permissions r = Some permissions /\
    UserRole.organizationId r = oid /\
    userRoles d2 = userRoles d ++ [r] /\
    users d2 = users d /\ organizations d2 = organizations d.
Proof.
  unfold Sql.insert_userRole. intros E. injection E as <- <-.
  eexists. repeat split.
Qed.

Lemma insert_user_inv email password username fullName oid rid d u d3 ws :
  Sql.insert_user email password username fullName oid rid d = inr (u, d3, ws) ->
  ws = [InsUser u] /\
  User.id u = users_seq d /\ User.email u = email /\
  User.password u = password /\
  User.organizationId u = oid /\ User.roleId u = rid /\
  User.isActive u = default_user_isActive /\
  users d3 = users d ++ [u] /\
  organizations d3 = organizations d /\ userRoles d3 = userRoles d.
Proof.
  unfold Sql.insert_user.
  destruct (existsb _ (users d)) eqn:Hemail; [discriminate|].
  intros E. injection E as <- <- <-. repeat split.
Qed.

(** X7.  Whatever happens, the rows that [registerUser] has written are a
    beginning of: the organization, the role "admin" of that organization,
    the user of that organization with that email.  There is never a role
    without its organization before it, nor a user without both. *)
Theorem registerUser_writes_in_order ud w :
  let written := journal (snd (registerUser ud w)) in
  written = journal w
  \/ exists o,
       Organization.subdomain o = Js.str (organizationSubdomain ud) /\
       (written = journal w ++ [InsOrganization o]
        \/ exists r,
             UserRole.name r = "admin" /\
             UserRole.organizationId r = Organization.id o /\
             (written = journal w ++ [InsOrganization o; InsUserRole r]
              \/ exists u,
                   User.email u = email ud /\
                   User.organizationId u = Organization.id o /\
                   written =
                     journal w ++ [InsOrganization o; InsUserRole r; InsUser u])).
Proof.
  destruct (registerUser_paths ud w) as (r & w' & -> & Hpaths). simpl.
  destruct Hpaths as [(_ & _ & Hj) | (oid & d1 & ws1 & _ & Hins1 & Hpaths)];
    [now left | right].
  apply insert_organization_inv in Hins1
    as (o & -> & _ & Hoid & _ & Hsub & _).
  exists o. split; [assumption|].
  destruct Hpaths as [(_ & _ & Hj) | (d2 & ws2 & Hins2 & Hpaths)];
    [now left | right].
  apply insert_userRole_inv in Hins2 as (r0 & -> & _ & Hname & _ & Horg & _).
  exists r0. split; [assumption|]. split; [congruence|].
  destruct Hpaths
    as [(_ & _ & Hj) | (h & rid & u & d3 & ws3 & _ & _ & Hins3 & _ & Hj & _)];
    [now left | right].
  apply insert_user_inv in Hins3 as (-> & _ & Hemail & _ & Huorg & _).
  exists u. split; [assumption|]. split; [congruence|]. exact Hj.
Qed.
End RegisterOrder.

(** ** No rollback *)

Lemma bind_runs {A B} (m : M A) (k : A -> M B) w a w1 :
  m w = (inr a, w1) -> bind m k w = k a w1.
Proof. intros H. unfold bind. now rewrite H. Qed.

Lemma bind_throws {A B} (m : M A) (k : A -> M B) w e w1 :
  m w = (inl e, w1) -> bind m k w = (inl e, w1).
Proof. intros H. unfold bind. now rewrite H. Qed.

Lemma not_in_existsb_eqb_false {A} (f : A -> string) s l :
  ~ In s (map f l) -> existsb (fun x => String.eqb (f x) s) l = false.
Proof.
  intros Hnot. destruct (existsb _ l) eqn:Hsome; [|reflexivity].
  exfalso. apply Hnot. apply existsb_exists in Hsome as [x [Hx E]].
  apply String.eqb_eq in E. subst s. now apply in_map.
Qed.

(** X8.  The three inserts of [registerUser] are not one unit.  When the
    organization is inserted and the insert of its role is then rejected,
    [registerUser] returns [null] and the organization stays in its table,
    with no role and no user: nothing is rolled back. *)
Theorem registerUser_no_rollback {bcrypt : Bcrypt} {defaults : ColumnDefaults}
    ud w h rest :
  bcrypt_hash (password ud) 12 = inr h ->
  Sql.select_id_by_email (email ud) (db w) = None ->
  Js.truthy_str (organizationName ud)
    && Js.truthy_str (organizationSubdomain ud) = true ->
  ~ In (Js.str (organizationSubdomain ud))
       (map Organization.subdomain (organizations (db w))) ->
  faults w = false :: false :: true :: rest ->
  fst (registerUser ud w) = inr None /\
  exists o,
    Organization.name o = Js.str (organizationName ud) /\
    Organization.subdomain o = Js.str (organizationSubdomain ud) /\
    organizations (db (snd (registerUser ud w))) = organizations (db w) ++ [o] /\
    userRoles (db (snd (registerUser ud w))) = userRoles (db w) /\
    users (db (snd (registerUser ud w))) = users (db w) /\
    journal (snd (registerUser ud w)) = journal w ++ [InsOrganization o].
Proof.
  intros Hhash Hnew Htruthy Hfree Hf.
  apply (not_in_existsb_eqb_false Organization.subdomain) in Hfree.
  assert (next_ok w) as Hok by (unfold next_ok; now rewrite Hf).
  assert (exists o wX,
            Organization.name o = Js.str (organizationName ud) /\
            Organization.subdomain o = Js.str (organizationSubdomain ud) /\
            organizations (db wX) = organizations (db w) ++ [o] /\
            userRoles (db wX) = userRoles (db w) /\
            users (db wX) = users (db w) /\
            journal wX = journal w ++ [InsOrganization o] /\
            registerUser ud w = (inr None, wX)) as (o & wX & Ho1 & Ho2 & Ho3 & Ho4 & Ho5 & Ho6 & ->).
  { unfold registerUser, try_catch.
    erewrite bind_runs by (unfold hashPassword, lift; now rewrite Hhash).
    erewrite bind_runs by (now apply query_runs).
    rewrite Hnew, Htruthy.
    erewrite bind_throws.
    2:{ erewrite bind_runs.
        2:{ rewrite statement_runs
              by (unfold next_ok, after_statement; simpl; now rewrite Hf).
            unfold Sql.insert_organization. simpl. rewrite Hfree. reflexivity. }
        apply bind_throws. apply statement_rejected. simpl. now rewrite Hf. }
    simpl. do 2 eexists.
    split; [|split; [|split; [|split; [|split; [|split]]]]].
    7: reflexivity.
    3: reflexivity.
    all: reflexivity. }
  simpl. split; [reflexivity|]. exists o. repeat split; assumption.
Qed.

Lemma registerUser_no_rollback_witness :
  faults (Sample.world [false; false; true]) = [false; false; true] /\
  fst (registerUser (bcrypt := Sample.bcrypt) (defaults := Sample.defaults)
         (register_data Sample.newcomer)
         (Sample.world [false; false; true])) = inr None /\
  exists o,
    organizations
      (db (snd (registerUser (bcrypt := Sample.bcrypt)
                  (defaults := Sample.defaults)
                  (register_data Sample.newcomer)
                  (Sample.world [false; false; true])))) =
      [Sample.acme; o].
Proof.
  split; [reflexivity|].
  destruct (registerUser_no_rollback (bcrypt := Sample.bcrypt)
              (defaults := Sample.defaults)
              (register_data Sample.newcomer)
              (Sample.world [false; false; true]) "$2a$12$pw123456" [])
    as (Hnull & o & _ & _ & Horgs & _);
    [reflexivity | reflexivity | reflexivity | | reflexivity |].
  - simpl. intuition discriminate.
  - split; [exact Hnull|]. exists o. exact Horgs.
Defined.

(** ** Register, log in, come back *)

Lemma db_wf_keys_unique d : db_wf d -> keys_unique d.
Proof. intros (_ & (_ & Ho & _) & (He & _) & _). now split. Qed.

Section RoundTrips.
Context {bcrypt : Bcrypt} {defaults : ColumnDefaults}.

(** What a registration that returns an identity has put in the tables. *)
Lemma registerUser_registered ud w ident w' :
  db_wf (db w) ->
  registerUser ud w = (inr (Some ident), w') ->
  exists h u o,
    bcrypt_hash (password ud) 12 = inr h /\
    db_wf (db w') /\
    In u (users (db w')) /\ In o (organizations (db w')) /\
    User.organizationId u = Organization.id o /\
    User.email u = email ud /\ User.password u = h /\
    User.isActive u = default_user_isActive /\
    Organization.isActive o = default_organization_isActive /\
    ident = Sql.columns (u, o).
Proof.
  intros Hwf Hreg.
  destruct (registerUser_paths ud w) as (r & w0 & Hrun & Hpaths).
  rewrite Hreg in Hrun. injection Hrun as <- <-.
  destruct Hpaths
    as [(E & _)
       | (oid & d1 & ws1 & _ & Hins1
          & [(E & _)
            | (d2 & ws2 & Hins2
               & [(E & _)
                 | (h & rid & u & d3 & ws3 & Hhash & Hrole & Hins3 & Hdb & _
                    & [E | (row & Hrow & E)])])])];
    try discriminate.
  injection E as ->.
  destruct (insert_organization_wf _ _ _ _ _ _ Hwf Hins1) as (Hwf1 & _ & Hoid & _).
  apply insert_organization_inv in Hins1
    as (o & _ & _ & Hoid' & _ & _ & Hoact & Horgs1 & _).
  destruct (insert_userRole_wf _ _ _ _ _ _ _ Hwf1 Hoid Hins2)
    as (Hwf2 & _ & Horgs2 & _).
  apply select_admin_role_some in Hrole as (r0 & Hr0 & Hid & Horg & _).
  assert (Hins3' := Hins3).
  apply (insert_user_wf _ _ _ _ _ _ _ _ _ _ Hwf2) in Hins3
    as (Hwf3 & _); [| now rewrite Horgs2 | eauto].
  apply insert_user_inv in Hins3'
    as (_ & Huid & Hemail & Hpw & Huorg & _ & Huact & Husers & Horgs3 & _).
  assert (In u (users d3)) as Hu
    by (rewrite Husers; apply in_or_app; right; simpl; auto).
  assert (In o (organizations d3)) as Ho
    by (rewrite Horgs3, Horgs2, Horgs1; apply in_or_app; right; simpl; auto).
  exists h, u, o. rewrite Hdb.
  repeat (split; [first [assumption | congruence]|]).
  destruct row as [u' o'].
  apply select_by_id_some in Hrow as (Hid' & Hu' & Ho' & Hjoin).
  destruct Hwf3 as (_ & (Hpu & Hpo & _) & _).
  assert (u' = u) as ->
    by (apply (NoDup_map_injective User.id (users d3)); auto).
  assert (o' = o) as ->
    by (apply (NoDup_map_injective Organization.id (organizations d3));
        auto; congruence).
  reflexivity.
Qed.

(** X9.  After a registration that returned an identity, on tables that
    had their integrity, with accounts and organizations active by default
    and a bcrypt whose [compare] accepts what its [hash] made: logging in
    with the registered email and password returns that same identity, and
    with a password that [compare] does not accept it returns [null]. *)
Theorem registration_allows_login ud w ident w' :
  db_wf (db w) ->
  registerUser ud w = (inr (Some ident), w') ->
  default_user_isActive = true ->
  default_organization_isActive = true ->
  (forall h, bcrypt_hash (password ud) 12 = inr h ->
             bcrypt_compare (password ud) h = inr true) ->
  next_ok w' -> next_ok (after_statement w') ->
  fst (authenticateUser (email ud) (password ud) w') = inr (Some ident) /\
  (forall other h,
     bcrypt_hash (password ud) 12 = inr h ->
     bcrypt_compare other h <> inr true ->
     fst (authenticateUser (email ud) other w') = inr None).
Proof.
  intros Hwf Hreg Huser Horg Hround Hok Hok2.
  destruct (registerUser_registered ud w ident w' Hwf Hreg)
    as (h & u & o & Hhash & Hwf' & Hu & Ho & Hjoin & Hemail & Hpw & Hua & Hoa & ->).
  assert (Sql.select_login_row (email ud) (db w') = Some (u, o)) as Hsel.
  { apply select_login_row_unique; try assumption; try congruence.
    now apply db_wf_keys_unique. }
  unfold next_ok in Hok2. simpl in Hok2.
  split.
  - rewrite authenticateUser_run by assumption.
    now rewrite Hsel, Hpw, (Hround h Hhash), Hok2.
  - intros other h' Hhash' Hreject.
    rewrite authenticateUser_run by assumption.
    rewrite Hsel, Hpw.
    assert (h' = h) as -> by congruence.
    destruct (bcrypt_compare other h) as [e|[|]]; try reflexivity.
    now contradiction Hreject.
Qed.

(** X10.  A second registration with the email of one that returned an
    identity returns [null] and leaves the tables and the journal as the
    first one left them. *)
Theorem register_twice_refused ud w ident w' again :
  registerUser ud w = (inr (Some ident), w') ->
  email again = email ud ->
  fst (registerUser again w') = inr None /\
  db (snd (registerUser again w')) = db w' /\
  journal (snd (registerUser again w')) = journal w'.
Proof.
  intros Hreg Hsame.
  apply registerUser_success in Hreg as (o & r & u & rid & Hall).
  destruct Hall as (_ & _ & _ & _ & _ & _ & _ & Hemail & _ & _ & Husers & _).
  assert (exists i, Sql.select_id_by_email (email again) (db w') = Some i)
    as [i Hi].
  { apply (select_id_by_email_some _ _ u); [|congruence].
    rewrite Husers. apply in_or_app. right. simpl. auto. }
  destruct (registerUser_paths again w') as (r0 & w0 & -> & Hpaths). simpl.
  destruct Hpaths as [(-> & Hdb & Hj) | (oid & d1 & ws1 & Hnone & _)].
  - auto.
  - congruence.
Qed.
End RoundTrips.

Lemma select_by_id_stamped t d u o :
  db_wf d ->
  In u (users d) -> In o (organizations d) ->
  User.organizationId u = Organization.id o ->
  Sql.select_by_id (User.id u) (stamped (User.id u) t d) =
    Some (logged_in_at t u, o).
Proof.
  intros (_ & (Hpu & Hpo & _) & _) Hu Ho Hjoin.
  assert (In (logged_in_at t u) (users (stamped (User.id u) t d))) as Hstamped.
  { unfold stamped. simpl. apply in_map_iff. exists u. split; [|assumption].
    now rewrite Z.eqb_refl. }
  destruct (Sql.select_by_id (User.id u) (stamped (User.id u) t d))
    as [[u' o']|] eqn:Hsel.
  - apply select_by_id_some in Hsel as (Hid & Hu' & Ho' & Hjoin').
    unfold stamped in Hu'. simpl in Hu', Ho'.
    apply in_map_iff in Hu' as [u0 [E Hu0]].
    assert (User.id u0 = User.id u) as Hsame.
    { destruct (User.id u0 =? User.id u) eqn:Eid; subst u'.
      - exact Hid.
      - exact Hid. }
    assert (u0 = u) as ->
      by (apply (NoDup_map_injective User.id (users d)); auto).
    rewrite Z.eqb_refl in E. subst u'.
    assert (o' = o) as ->.
    { apply (NoDup_map_injective Organization.id (organizations d)); auto.
      simpl in Hjoin'. congruence. }
    reflexivity.
  - exfalso.
    apply (select_by_id_none _ _ (logged_in_at t u) o Hsel); auto.
Qed.

(** X11.  The session that a login establishes is accepted afterwards,
    unless the storage fails then.  After [authenticateUser] returned an
    identity, on tables that had their integrity, the loader run for a
    request that carries the identifier of that identity does one of two
    things.  When its fetch is answered it attaches the same user and
    organization: the row is the one returned, with [lastLogin] now at the
    time of the login.  When the storage rejects its fetch it attaches
    nothing and removes the identifier from the session. *)
Theorem login_then_loader_attaches {bcrypt : Bcrypt}
    email password w ident w' uid req :
  db_wf (db w) ->
  authenticateUser email password w = (inr (Some ident), w') ->
  Js.get "id" ident = JNum uid ->
  carries req uid ->
  exists u o,
    ident = Sql.columns (u, o) /\
    (next_ok w' ->
     fst (loadUserContext req w') =
       inr (Next, set_user (Sql.columns (logged_in_at (clock w) u, o)) req)) /\
    (forall rest, faults w' = true :: rest ->
     fst (loadUserContext req w') = inr (Next, set_session_userId None req)).
Proof.
  intros Hwf Hlogin Hid Hcarries.
  destruct (authenticateUser_pair email password w)
    as [(w1 & Hrun & _) | (u & o & w1 & Hrun & Hsel & _ & Hdb & _)];
    rewrite Hlogin in Hrun; [discriminate|].
  injection Hrun as -> <-.
  simpl in Hid. injection Hid as <-.
  exists u, o. split; [reflexivity|].
  apply select_login_row_some in Hsel as (Hu & Ho & Hjoin & _ & Hua & Hoa).
  rewrite (loadUserContext_run _ _ _ Hcarries).
  split.
  - intros Hok.
    assert (fetch (User.id u) w' = Some (logged_in_at (clock w) u, o)) as ->.
    { unfold fetch. unfold next_ok in Hok.
      destruct (faults w') as [|[|] ?]; simpl in Hok; try discriminate;
        rewrite Hdb; now apply select_by_id_stamped. }
    simpl. now rewrite Hua, Hoa.
  - intros rest Hf. unfold fetch. now rewrite Hf.
Qed.

Lemma registration_allows_login_witness :
  db_wf (db (Sample.world [])) /\
  fst (authenticateUser (bcrypt := Sample.bcrypt) "n@x.com" "pw123456"
         (snd (registerUser (bcrypt := Sample.bcrypt)
                 (defaults := Sample.defaults)
                 (register_data Sample.newcomer) (Sample.world [])))) =
    inr (Some (Sql.columns
                 (User.mk 5 "n" "n@x.com" "$2a$12$pw123456" None None None 2 3
                          true None 200 200,
                  Organization.mk 2 "Newco" "newco" "{}" true 200 200))).
Proof.
  split; [exact sample_tables_wf|].
  assert (registerUser (bcrypt := Sample.bcrypt) (defaults := Sample.defaults)
            (register_data Sample.newcomer) (Sample.world []) =
          (inr (Some (Sql.columns
                        (User.mk 5 "n" "n@x.com" "$2a$12$pw123456" None None
                                 None 2 3 true None 200 200,
                         Organization.mk 2 "Newco" "newco" "{}" true 200 200))),
           snd (registerUser (bcrypt := Sample.bcrypt)
                  (defaults := Sample.defaults)
                  (register_data Sample.newcomer) (Sample.world []))))
    as Hreg by (vm_compute; reflexivity).
  apply (registration_allows_login (bcrypt := Sample.bcrypt)
           (defaults := Sample.defaults)
           (register_data Sample.newcomer) (Sample.world []) _ _
           sample_tables_wf Hreg eq_refl eq_refl).
  - intros h E. injection E as <-. reflexivity.
  - vm_compute. reflexivity.
  - vm_compute. reflexivity.
Defined.

Lemma register_twice_refused_witness :
  email (register_data Sample.newcomer) = email (register_data Sample.newcomer) /\
  fst (registerUser (bcrypt := Sample.bcrypt) (defaults := Sample.defaults)
         (register_data Sample.newcomer)
         (snd (registerUser (bcrypt := Sample.bcrypt)
                 (defaults := Sample.defaults)
                 (register_data Sample.newcomer) (Sample.world [])))) = inr None.
Proof.
  split; [reflexivity|].
  assert (registerUser (bcrypt := Sample.bcrypt) (defaults := Sample.defaults)
            (register_data Sample.newcomer) (Sample.world []) =
          (inr (Some (Sql.columns
                        (User.mk 5 "n" "n@x.com" "$2a$12$pw123456" None None
                                 None 2 3 true None 200 200,
                         Organization.mk 2 "Newco" "newco" "{}" true 200 200))),
           snd (registerUser (bcrypt := Sample.bcrypt)
                  (defaults := Sample.defaults)
                  (register_data Sample.newcomer) (Sample.world []))))
    as Hreg by (vm_compute; reflexivity).
  apply (register_twice_refused (bcrypt := Sample.bcrypt)
           (defaults := Sample.defaults)
           (register_data Sample.newcomer) (Sample.world []) _ _
           (register_data Sample.newcomer) Hreg eq_refl).
Defined.

Lemma login_then_loader_attaches_witness :
  db_wf (db (Sample.world [])) /\
  carries (mkRequest Sample.no_body (Some (mkSession (Some 1))) None) 1 /\
  exists u o,
    fst (loadUserContext
           (mkRequest Sample.no_body (Some (mkSession (Some 1))) None)
           (snd (authenticateUser (bcrypt := Sample.bcrypt)
                   "a@x.com" "pw123456" (Sample.world [])))) =
      inr (Next,
           set_user (Sql.columns (logged_in_at 300 u, o))
                    (mkRequest Sample.no_body (Some (mkSession (Some 1))) None)).
Proof.
  assert (carries (mkRequest Sample.no_body (Some (mkSession (Some 1))) None) 1)
    as Hcarries by (split; [reflexivity | discriminate]).
  split; [exact sample_tables_wf|]. split; [exact Hcarries|].
  destruct (login_then_loader_attaches (bcrypt := Sample.bcrypt)
              "a@x.com" "pw123456" (Sample.world [])
              (Sql.columns (Sample.alice, Sample.acme)) _ 1
              (mkRequest Sample.no_body (Some (mkSession (Some 1))) None)
              sample_tables_wf eq_refl eq_refl Hcarries)
    as (u & o & _ & Hloader & _).
  exists u, o. exact (Hloader eq_refl).
Defined.

(** ** The login and register routes *)

Ltac clash := intros; first [discriminate | congruence | contradiction].

Section RouteOutcomes.
Context {bcrypt : Bcrypt} {defaults : ColumnDefaults}.

(** X12.  [POST /api/auth/login] always answers.  It binds the session only
    together with a 200, and then to the identifier of the identity that
    [authenticateUser] returned; with any other status the request is as it
    came.  With the email or the password missing it answers 400 without a
    single statement; it answers 500 only when the request has no session
    object. *)
Theorem post_login_binds_on_success req w :
  exists s json req' w',
    post_login req w = (inr (Respond s json, req'), w') /\
    (s = 200 ->
     exists ident id,
       authenticateUser (Js.str (body_email (body req)))
                        (Js.str (body_password (body req))) w
         = (inr (Some ident), w') /\
       Js.get "id" ident = JNum id /\
       json = user_json ident /\
       req' = set_session_userId (Some id) req) /\
    (s <> 200 -> req' = req) /\
    (Js.truthy_str (body_email (body req))
       && Js.truthy_str (body_password (body req)) = false ->
     s = 400 /\ w' = w) /\
    (s = 500 -> session req = None).
Proof.
  remember (post_login req w) as run eqn:Hrun.
  unfold post_login, try_catch in Hrun.
  destruct (Js.truthy_str (body_email (body req))) eqn:He;
    [destruct (Js.truthy_str (body_password (body req))) eqn:Hp|];
    simpl in Hrun.
  - unfold bind at 1 in Hrun.
    destruct (authenticateUser_pair (Js.str (body_email (body req)))
                (Js.str (body_password (body req))) w)
      as [(w1 & Hauth & _) | (u & o & w1 & Hauth & _)];
      rewrite Hauth in Hrun; simpl in Hrun.
    + subst run. do 4 eexists. split; [reflexivity|].
      repeat split; clash.
    + unfold bind, bind_session in Hrun.
      destruct (session req) as [sess|] eqn:Hsess; simpl in Hrun; subst run.
      * do 4 eexists. split; [reflexivity|].
        split; [|repeat split; clash].
        intros _. exists (Sql.columns (u, o)), (User.id u).
        repeat split. exact Hauth.
      * do 4 eexists. split; [reflexivity|].
        repeat split; clash.
  - subst run. do 4 eexists. split; [reflexivity|].
    repeat split; clash.
  - subst run. do 4 eexists. split; [reflexivity|].
    repeat split; clash.
Qed.

(** X13.  [POST /api/auth/register] always answers.  It binds the session
    only together with a 200, and then to the identifier of the identity
    that [registerUser] returned; with any other status the request is as it
    came.  When one of the five required fields is missing it answers 400
    before anything is hashed or sent to the storage.  It answers 500 only
    when the request has no session object, and then [registerUser] had
    already returned an identity: the rows are written. *)
Theorem post_register_binds_on_success req w :
  exists s json req' w',
    post_register req w = (inr (Respond s json, req'), w') /\
    (s = 200 ->
     exists ident id,
       registerUser (register_data (body req)) w = (inr (Some ident), w') /\
       Js.get "id" ident = JNum id /\
       json = user_json ident /\
       req' = set_session_userId (Some id) req) /\
    (s <> 200 -> req' = req) /\
    (~ complete_registration (body req) -> s = 400 /\ w' = w) /\
    (s = 500 ->
     session req = None /\
     exists ident, fst (registerUser (register_data (body req)) w)
                   = inr (Some ident)).
Proof.
  remember (post_register req w) as run eqn:Hrun.
  unfold post_register, try_catch in Hrun.
  destruct (Js.truthy_str (body_email (body req))) eqn:He;
    [destruct (Js.truthy_str (body_password (body req))) eqn:Hp;
     [destruct (Js.truthy_str (body_username (body req))) eqn:Hu;
      [destruct (Js.truthy_str (body_organizationName (body req))) eqn:Hn;
       [destruct (Js.truthy_str (body_organizationSubdomain (body req))) eqn:Hs|]|]|]|];
    simpl in Hrun.
  2-6: subst run; do 4 eexists; (split; [reflexivity|]);
       repeat split; clash.
  assert (complete_registration (body req)) as Hcomplete
    by (unfold complete_registration; auto).
  unfold bind at 1 in Hrun.
  destruct (registerUser_total (register_data (body req)) w)
    as ([ident|] & w1 & Hreg); rewrite Hreg in Hrun; simpl in Hrun.
  - pose proof Hreg as Hsuccess.
    apply registerUser_success in Hsuccess as (o & r & u & rid & Hall).
    do 14 apply proj2 in Hall. destruct Hall as [[[u1 o1] ->] _].
    unfold bind, bind_session in Hrun.
    destruct (session req) as [sess|] eqn:Hsess; simpl in Hrun; subst run.
    + do 4 eexists. split; [reflexivity|].
      split; [|split; [clash|split; clash]].
      intros _. exists (Sql.columns (u1, o1)), (User.id u1).
      repeat split. exact Hreg.
    + do 4 eexists. split; [reflexivity|].
      split; [clash|]. split; [reflexivity|].
      split; [clash|].
      intros _. split; [reflexivity|]. rewrite Hreg. simpl. eauto.
  - subst run. do 4 eexists. split; [reflexivity|].
    split; [clash|]. split; [reflexivity|].
    split; clash.
Qed.
End RouteOutcomes.

(** ** The request logger *)

Lemma truncate_short (l : ustring) :
  (length l <= 80)%nat -> truncate l = l.
Proof.
  intros H. unfold truncate.
  destruct (Nat.ltb_spec 80 (length l)); [lia | reflexivity].
Qed.

Lemma truncate_long (l : ustring) :
  (80 < length l)%nat -> truncate l = firstn 79 l ++ ellipsis.
Proof.
  intros H. unfold truncate.
  destruct (Nat.ltb_spec 80 (length l)); [reflexivity | lia].
Qed.

(** X14.  A line that the logger passes to [log] has at most 80 code units.
    It is the whole line when that has at most 80 units; otherwise it is
    the first 79 units of the line followed by the one-unit ellipsis, 80
    units in all.  Either way it agrees with the whole line on the first 79
    units, and the path of the request starts with "/api". *)
Theorem on_finish_bounded JSON_stringify method pathStr statusCode duration
    captured logged :
  on_finish JSON_stringify method pathStr statusCode duration captured
    = Some logged ->
  let whole :=
    full_line JSON_stringify method pathStr statusCode duration captured in
  (length logged <= 80)%nat /\
  ((length whole <= 80)%nat -> logged = whole) /\
  ((80 < length whole)%nat ->
     logged = firstn 79 whole ++ ellipsis /\ length logged = 80%nat) /\
  firstn 79 logged = firstn 79 whole /\
  startsWith pathStr (units "/api") = true.
Proof.
  intros H. cbv zeta.
  set (whole := full_line JSON_stringify method pathStr statusCode duration
                          captured).
  unfold on_finish in H. fold whole in H.
  destruct (startsWith pathStr (units "/api")); [|discriminate].
  injection H as <-.
  destruct (Nat.le_gt_cases (length whole) 80) as [Hshort | Hlong].
  - rewrite (truncate_short whole Hshort).
    repeat split; intros; try assumption; try reflexivity; lia.
  - rewrite (truncate_long whole Hlong).
    assert (length (firstn 79 whole) = 79%nat) as Hlen
      by (apply firstn_length_le; lia).
    assert (length (firstn 79 whole ++ ellipsis) = 80%nat) as Hlen'
      by (rewrite length_app, Hlen; reflexivity).
    split; [lia|]. split; [intros; lia|]. split; [auto|]. split; [|reflexivity].
    rewrite firstn_app, Hlen, Nat.sub_diag, firstn_O, app_nil_r.
    apply firstn_all2. lia.
Qed.

Lemma on_finish_bounded_witness :
  on_finish (fun _ => units "{...}") (units "POST") (units "/api/auth/login")
            401 12 (Some (message "Invalid credentials"))
    = Some (units "POST /api/auth/login 401 in 12ms :: {...}") /\
  (length (units "POST /api/auth/login 401 in 12ms :: {...}") <= 80)%nat.
Proof.
  split; [reflexivity|].
  apply (on_finish_bounded (fun _ => units "{...}") (units "POST")
           (units "/api/auth/login") 401 12
           (Some (message "Invalid credentials")) _ eq_refl).
Defined.

(** ** The last error handler *)





(** ** The search route *)

Section SearchProperties.
Context (searchLeads searchTickets searchDeals searchProjects : string -> M JsValue).


End SearchProperties.

(** ** The assistant route *)

(** X17.  [POST /api/ai/chat] always answers, with 400 or 200 and never
    with a status of the 5xx class.  It answers 400 exactly when the message
    is falsy.  A message that is truthy but not a string, and an assistant
    that throws, are both answered with status 200 and the apology, after a
    [console.error]. *)
Theorem post_ai_chat_statuses (processLocalAIMessage : string -> M JsValue)
    (trim : string -> string) body_message w :
  exists s json w',
    post_ai_chat processLocalAIMessage trim body_message w
      = (inr (Respond s json), w') /\
    (s = 400 \/ s = 200) /\
    (s = 400 <-> Js.truthy body_message = false) /\
    (Js.truthy body_message = true ->
     (forall text, body_message <> JStr text) ->
     json = apology /\
     console w' = console w ++ [("Local AI Chat error:",
                                 TypeError "message.trim is not a function")]) /\
    (forall text e w1,
       body_message = JStr text -> Js.truthy body_message = true ->
       processLocalAIMessage (trim text) w = (inl e, w1) ->
       s = 200 /\ json = apology).
Proof.
  remember (post_ai_chat processLocalAIMessage trim body_message w) as run
    eqn:Hrun.
  unfold post_ai_chat, try_catch in Hrun.
  destruct (Js.truthy body_message) eqn:Htruthy; simpl in Hrun.
  - destruct body_message as [| |b|n|text|t|j|fields];
      try discriminate Htruthy;
      try (unfold bind in Hrun; simpl in Hrun; subst run;
           do 3 eexists; (split; [reflexivity|]);
           (split; [now right|]);
           (split; [split; discriminate|]);
           (split; [intros _ _; split; reflexivity|]);
           intros text e w1 E; discriminate E).
    unfold bind at 1 in Hrun. simpl in Hrun. unfold bind at 1 in Hrun.
    destruct (processLocalAIMessage (trim text) w) as [[e|result] w1] eqn:Hai;
      simpl in Hrun; subst run.
    + do 3 eexists. split; [reflexivity|]. split; [now right|].
      split; [split; discriminate|].
      split; [intros _ Hnot; now contradiction (Hnot text)|].
      intros text' e' w1' E _ _. auto.
    + do 3 eexists. split; [reflexivity|]. split; [now right|].
      split; [split; discriminate|].
      split; [intros _ Hnot; now contradiction (Hnot text)|].
      intros text' e' w1' E _ Hthrows. injection E as <-.
      rewrite Hai in Hthrows. discriminate.
  - subst run. do 3 eexists. split; [reflexivity|]. split; [now left|].
    split; [split; reflexivity|].
    split; [discriminate|].
    intros text e w1 _ Hfalse. discriminate.
Qed.

(** ** The list of required roles *)

(** X18.  The list given to [requireRole] is an alternative.  With the
    role fetched: an empty list lets through the wildcard only; a longer
    list never refuses what a shorter one lets through; a joined list lets
    through exactly what one of its two parts does. *)
Theorem requireRole_list_is_alternative requiredRoles more req w name permissions :
  gate_finds req w name permissions ->
  (passes [] req w <-> In "*" (permission_set permissions)) /\
  (passes requiredRoles req w -> passes (requiredRoles ++ more) req w) /\
  (passes (requiredRoles ++ more) req w <->
   passes requiredRoles req w \/ passes more req w).
Proof.
  intros Hfinds. unfold passes.
  rewrite !(requireRole_found _ _ _ _ _ Hfinds).
  rewrite existsb_app. simpl.
  destruct (includes permissions "*") eqn:Hstar; simpl.
  - split; [|split].
    + split; [intros _; now apply includes_In | reflexivity].
    + reflexivity.
    + split; auto.
  - destruct (existsb _ requiredRoles), (existsb _ more); simpl;
      (split; [|split]);
      try (split; [discriminate | intros Hin; apply includes_In in Hin; congruence]);
      try reflexivity; try discriminate;
      try (split; [auto | intros [H | H]; first [exact H | discriminate H]]).
Qed.

Lemma requireRole_list_is_alternative_witness :
  gate_finds Sample.bob_request (Sample.world []) "viewer" (Some ["read"]) /\
  passes (["admin"] ++ ["viewer"]) Sample.bob_request (Sample.world []) /\
  ~ passes [] Sample.bob_request (Sample.world []).
Proof.
  destruct (requireRole_list_is_alternative ["admin"] ["viewer"] _ _ _ _
              bob_is_viewer) as (Hempty & _ & Hjoined).
  split; [exact bob_is_viewer|]. split.
  - apply Hjoined. right. reflexivity.
  - intros Hpasses. apply Hempty in Hpasses. simpl in Hpasses.
    intuition discriminate.
Defined.

(** ** The role of an attached identity *)

Lemma select_role_unique roleId d r :
  NoDup (map UserRole.id (userRoles d)) ->
  In r (userRoles d) -> UserRole.id r = roleId ->
  Sql.select_role roleId d = Some (UserRole.name r, UserRole.permissions r).
Proof.
  intros Hnodup Hin Hid. unfold Sql.select_role, Sql.limit1.
  destruct (filter (fun r0 => UserRole.id r0 =? roleId) (userRoles d))
    as [|r' rest] eqn:Hf.
  - exfalso. assert (In r []) as [].
    rewrite <- Hf. apply filter_In. split; [assumption|]. now apply Z.eqb_eq.
  - simpl. assert (In r' (r' :: rest)) as Hin' by (simpl; auto).
    rewrite <- Hf in Hin'. apply filter_In in Hin' as [Hin' Hid'].
    apply Z.eqb_eq in Hid'.
    assert (r' = r) as ->
      by (apply (NoDup_map_injective UserRole.id (userRoles d)); congruence).
    reflexivity.
Qed.

(** X19.  With the integrity of the tables, the gate never answers "No
    role found" for an attached stored user.  When the lookup is answered
    it finds the row that the user's role reference names, and the answer is
    [next()] or 403 "Insufficient permissions", decided by that row; when
    the storage rejects the lookup the answer is 500 "Authorization
    error". *)
Theorem requireRole_finds_stored_role requiredRoles req w u o :
  db_wf (db w) ->
  In u (users (db w)) ->
  user req = Some (Sql.columns (u, o)) ->
  exists r,
    In r (userRoles (db w)) /\
    UserRole.id r = User.roleId u /\
    (next_ok w ->
     fst (requireRole requiredRoles req w) =
       inr (if includes (UserRole.permissions r) "*"
               || existsb (fun role => String.eqb (UserRole.name r) role
                                       || includes (UserRole.permissions r) role)
                          requiredRoles
            then Next
            else Respond 403 (message "Insufficient permissions"), req)) /\
    (forall rest, faults w = true :: rest ->
     fst (requireRole requiredRoles req w) =
       inr (Respond 500 (message "Authorization error"), req)) /\
    fst (requireRole requiredRoles req w) <>
      inr (Respond 403 (message "No role found"), req).
Proof.
  intros (_ & (_ & _ & Hpr) & _ & (Hfu & _) & _) Hu Huser.
  destruct (Hfu u Hu) as [_ Hrole].
  apply in_map_iff in Hrole as [r [Hid Hr]].
  exists r. split; [assumption|]. split; [assumption|].
  assert (next_ok w ->
          fst (requireRole requiredRoles req w) =
            inr (if includes (UserRole.permissions r) "*"
                    || existsb (fun role => String.eqb (UserRole.name r) role
                                            || includes (UserRole.permissions r) role)
                               requiredRoles
                 then Next
                 else Respond 403 (message "Insufficient permissions"), req))
    as Hanswered.
  { intros Hok. apply requireRole_found.
    exists (Sql.columns (u, o)), (User.roleId u).
    split; [assumption|]. split; [reflexivity|]. split; [assumption|].
    now apply select_role_unique. }
  assert (forall rest, faults w = true :: rest ->
          fst (requireRole requiredRoles req w) =
            inr (Respond 500 (message "Authorization error"), req))
    as Hrejected.
  { intros rest Hf. apply requireRole_rejected.
    split; [rewrite Huser; discriminate | eauto]. }
  split; [exact Hanswered|]. split; [exact Hrejected|].
  destruct (next_ok_dec w) as [Hok | [rest Hf]].
  - rewrite (Hanswered Hok).
    destruct (includes (UserRole.permissions r) "*" || existsb _ requiredRoles);
      discriminate.
  - rewrite (Hrejected rest Hf). discriminate.
Qed.

Lemma requireRole_finds_stored_role_witness :
  db_wf (db (Sample.world [])) /\
  In Sample.bob (users (db (Sample.world []))) /\
  fst (requireRole ["admin"] Sample.bob_request (Sample.world [])) <>
    inr (Respond 403 (message "No role found"), Sample.bob_request) /\
  fst (requireRole ["admin"] Sample.bob_request (Sample.world [true])) =
    inr (Respond 500 (message "Authorization error"), Sample.bob_request).
Proof.
  assert (In Sample.bob (users (db (Sample.world [])))) as Hbob
    by (simpl; auto).
  split; [exact sample_tables_wf|]. split; [exact Hbob|].
  destruct (requireRole_finds_stored_role ["admin"] Sample.bob_request
              (Sample.world []) Sample.bob Sample.acme
              sample_tables_wf Hbob eq_refl)
    as (r & _ & _ & _ & _ & Hfound).
  destruct (requireRole_finds_stored_role ["admin"] Sample.bob_request
              (Sample.world [true]) Sample.bob Sample.acme
              sample_tables_wf Hbob eq_refl)
    as (r' & _ & _ & _ & Hrejected & _).
  split; [exact Hfound | exact (Hrejected [] eq_refl)].
Defined.

(** ** Logging out *)

